(** * python-ternary: a shallow embedding of [ternary/plotting.py]

    The module draws ternary diagrams with matplotlib.  What is embedded
    here is its geometry and bookkeeping: the lattice enumeration
    [simplex_points], the projection [project_point] / [project], the
    helper [normalize], the colour lookup [colormapper], the cell
    polygons [triangle_coordinates] and [hex_coordinates], and the
    drivers [heatmap] and [plot_heatmap].

    Modelling choices.
    - Python integers are [Z].  Python floats are an interface [PyFloat]
      with two instances: [R] (exact arithmetic, in which the closed
      forms are stated and proved for all inputs) and [float] (IEEE
      binary64, the arithmetic that CPython runs, on which concrete
      calls are evaluated).  Statements that do not depend on the
      arithmetic are proved for every instance.
    - Exceptions are values of [exn]; a call that can raise returns a
      [result].
    - A generator is the finite list of the values it yields, in order.
    - A dict is the list of its items in insertion order.
    - The matplotlib axes object is a record of the draw calls made on
      it; colour maps and [rgb2hex] are collaborators, taken as
      parameters. *)

From Stdlib Require Import PrimFloat SpecFloat FloatOps.
From Stdlib Require Import String ZArith List Lia Bool Sorted.
From Stdlib Require Import Reals Lra QArith.
Import ListNotations.

Set Implicit Arguments.
Local Open Scope Z_scope.

(** ** Exceptions and results *)

Inductive exn : Set :=
| TypeError
| IndexError
| ValueError
| ZeroDivisionError.

Inductive result (A : Type) : Type :=
| Ok (a : A)
| Raise (e : exn).

Arguments Ok {A} a.
Arguments Raise {A} e.

Definition bind {A B : Type} (m : result A) (k : A -> result B) : result B :=
  match m with
  | Ok a => k a
  | Raise e => Raise e
  end.

Notation "x <- m ;; k" := (bind m (fun x => k))
  (at level 61, m at next level, right associativity).

Fixpoint mapM {A B : Type} (f : A -> result B) (l : list A) : result (list B) :=
  match l with
  | [] => Ok []
  | a :: l' => b <- f a ;; bs <- mapM f l' ;; Ok (b :: bs)
  end.

(** ** Lattice enumeration *)

(** [range(a, b)] of Python: [a, a+1, ..., b-1], empty when [b <= a]. *)
Definition py_range (a b : Z) : list Z :=
  map (fun k => a + Z.of_nat k) (seq 0 (Z.to_nat (b - a))).

Definition triple : Set := (Z * Z * Z)%type.

Definition x1_of (t : triple) : Z := fst (fst t).
Definition x2_of (t : triple) : Z := snd (fst t).
Definition x3_of (t : triple) : Z := snd t.

(** The generator [simplex_points(steps, boundary)], as the list of the
    triples it yields. *)
Definition simplex_points (steps : Z) (boundary : bool) : list triple :=
  let start := if boundary then 0 else 1 in
  flat_map
    (fun x1 =>
       map (fun x2 => (x1, x2, steps - x1 - x2))
           (py_range start (steps + (1 - start) - x1)))
    (py_range start (steps + (1 - start))).

(** Strict lexicographic order on the first two components. *)
Definition lex12 (s t : triple) : Prop :=
  x1_of s < x1_of t \/ (x1_of s = x1_of t /\ x2_of s < x2_of t).

(** ** Numbers *)

(** The float operations the module uses.  [float_of_Z] is the coercion
    Python applies when an [int] meets a [float] in arithmetic.  The
    comparisons of an [int] with a [float] are those of Python, which
    compares the two values as they are, without converting the
    integer: [Z_ltb_float n x] is [n < x], [float_ltb_Z x n] is [x < n]
    and [Z_eqb_float n x] is [n == x]. *)
Class PyFloat (F : Type) : Type := {
  float_of_Z : Z -> F;
  fadd : F -> F -> F;
  fsub : F -> F -> F;
  fmul : F -> F -> F;
  fdiv : F -> F -> F;
  fneg : F -> F;
  fsqrt : F -> F;
  feqb : F -> F -> bool;
  fltb : F -> F -> bool;
  Z_ltb_float : Z -> F -> bool;
  float_ltb_Z : F -> Z -> bool;
  Z_eqb_float : Z -> F -> bool
}.

(** A Python number: an [int] or a [float]. *)
Inductive pynum (F : Type) : Type :=
| PInt (n : Z)
| PFloat (x : F).

Arguments PInt {F} n.
Arguments PFloat {F} x.

(** A Python value as far as projection can meet one: a number, a tuple
    or a list. *)
#[warnings="-register-all"]
Inductive pyval (F : Type) : Type :=
| VNum (n : pynum F)
| VTuple (l : list (pyval F))
| VList (l : list (pyval F)).

Arguments VNum {F} n.
Arguments VTuple {F} l.
Arguments VList {F} l.

(** One call of [ax.fill(x, y, facecolor=color, edgecolor=color)]. *)
Record fill_call (F : Type) : Type := {
  fill_x : list F;
  fill_y : list F;
  facecolor : string;
  edgecolor : string
}.

(** The colour bar attached by [heatmap]: the scalar mappable's domain,
    the tick locator and the formatter. *)
Record colorbar (F : Type) : Type := {
  cb_vmin : pynum F;
  cb_vmax : pynum F;
  cb_format : string;
  cb_numticks : Z;
  cb_scientific : bool
}.

(** The drawing surface: the calls made on it, oldest first. *)
Record axes (F : Type) : Type := {
  ax_fills : list (fill_call F);
  ax_colorbars : list (colorbar F)
}.

(** A dict keyed by lattice pairs: its items in insertion order. *)
Definition dict (V : Type) : Type := list ((Z * Z) * V).

Definition key_eqb (k k' : Z * Z) : bool :=
  (fst k =? fst k') && (snd k =? snd k').

(** [d[k] = v]: an existing key keeps its place. *)
Fixpoint dict_set {V : Type} (d : dict V) (k : Z * Z) (v : V) : dict V :=
  match d with
  | [] => [(k, v)]
  | (k', v') :: d' =>
      if key_eqb k k' then (k', v) :: d' else (k', v') :: dict_set d' k v
  end.

Definition dict_values {V : Type} (d : dict V) : list V := map snd d.

Section Embedding.

Context {F : Type} {PF : PyFloat F}.

Definition to_float (a : pynum F) : F :=
  match a with
  | PInt n => float_of_Z n
  | PFloat x => x
  end.

Definition num_add (a b : pynum F) : pynum F :=
  match a, b with
  | PInt m, PInt n => PInt (m + n)
  | _, _ => PFloat (fadd (to_float a) (to_float b))
  end.

Definition num_sub (a b : pynum F) : pynum F :=
  match a, b with
  | PInt m, PInt n => PInt (m - n)
  | _, _ => PFloat (fsub (to_float a) (to_float b))
  end.

Definition num_mul (a b : pynum F) : pynum F :=
  match a, b with
  | PInt m, PInt n => PInt (m * n)
  | _, _ => PFloat (fmul (to_float a) (to_float b))
  end.

Definition num_eqb (a b : pynum F) : bool :=
  match a, b with
  | PInt m, PInt n => m =? n
  | PInt m, PFloat y => Z_eqb_float m y
  | PFloat x, PInt n => Z_eqb_float n x
  | PFloat x, PFloat y => feqb x y
  end.

Definition num_ltb (a b : pynum F) : bool :=
  match a, b with
  | PInt m, PInt n => m <? n
  | PInt m, PFloat y => Z_ltb_float m y
  | PFloat x, PInt n => float_ltb_Z x n
  | PFloat x, PFloat y => fltb x y
  end.

(** [x / y] with a float divisor. *)
Definition num_truediv (x : pynum F) (y : F) : result F :=
  if feqb y (float_of_Z 0) then Raise ZeroDivisionError
  else Ok (fdiv (to_float x) y).

(** The builtin [sum]: left to right, from the integer 0, one addition
    per element, each rounded where the operands are floats.  This is
    the plain loop of CPython before 3.12; the compensated float
    summation of later versions is not modelled. *)
Definition py_sum (xs : list (pynum F)) : pynum F :=
  fold_left num_add xs (PInt 0).

(** The builtins [min] and [max] over a sequence. *)
Definition py_min (xs : list (pynum F)) : result (pynum F) :=
  match xs with
  | [] => Raise ValueError
  | x :: r => Ok (fold_left (fun m v => if num_ltb v m then v else m) r x)
  end.

Definition py_max (xs : list (pynum F)) : result (pynum F) :=
  match xs with
  | [] => Raise ValueError
  | x :: r => Ok (fold_left (fun m v => if num_ltb m v then v else m) r x)
  end.

(** The float literals of the module. *)
Definition lit_2 : F := float_of_Z 2.
Definition lit_1 : F := float_of_Z 1.
Definition lit_0_5 : F := fdiv (float_of_Z 1) (float_of_Z 2).
Definition lit_1_5 : F := fdiv (float_of_Z 3) (float_of_Z 2).

(** [SQRT3OVER2 = math.sqrt(3) / 2.] *)
Definition SQRT3OVER2 : F := fdiv (fsqrt (float_of_Z 3)) lit_2.

(** ** Helpers *)

(** [normalize(xs)]: [s = float(sum(xs)); return [x / s for x in xs]]. *)
Definition normalize (xs : list (pynum F)) : result (list F) :=
  let s := to_float (py_sum xs) in
  mapM (fun x => num_truediv x s) xs.

(** ** Projection *)

(** [v[k]] for a constant index [k >= 0]. *)
Definition py_getitem (v : pyval F) (k : nat) : result (pyval F) :=
  match v with
  | VNum _ => Raise TypeError
  | VTuple l | VList l =>
      match nth_error l k with
      | Some x => Ok x
      | None => Raise IndexError
      end
  end.

(** [n * l] for a sequence [l]: [n] copies, none when [n <= 0]. *)
Definition seq_repeat {A : Type} (n : Z) (l : list A) : list A :=
  concat (repeat l (Z.to_nat n)).

Definition py_mul (a b : pyval F) : result (pyval F) :=
  match a, b with
  | VNum x, VNum y => Ok (VNum (num_mul x y))
  | VNum (PInt n), VTuple l | VTuple l, VNum (PInt n) => Ok (VTuple (seq_repeat n l))
  | VNum (PInt n), VList l | VList l, VNum (PInt n) => Ok (VList (seq_repeat n l))
  | _, _ => Raise TypeError
  end.

Definition py_add (a b : pyval F) : result (pyval F) :=
  match a, b with
  | VNum x, VNum y => Ok (VNum (num_add x y))
  | VTuple l, VTuple l' => Ok (VTuple (l ++ l'))
  | VList l, VList l' => Ok (VList (l ++ l'))
  | _, _ => Raise TypeError
  end.

(** Iterating over a value. *)
Definition py_iter (v : pyval F) : result (list (pyval F)) :=
  match v with
  | VNum _ => Raise TypeError
  | VTuple l | VList l => Ok l
  end.

(** [project_point(p)]. *)
Definition project_point (p : pyval F) : result (pyval F) :=
  a <- py_getitem p 0 ;;
  b <- py_getitem p 1 ;;
  c <- py_getitem p 2 ;;
  t <- py_mul (VNum (PInt 2)) b ;;
  u <- py_add t c ;;
  x <- py_mul (VNum (PFloat lit_0_5)) u ;;
  y <- py_mul (VNum (PFloat SQRT3OVER2)) c ;;
  Ok (VTuple [x; y]).

(** [unzip(l) = zip( *l)]: the columns of [l], as many as its shortest
    row has entries. *)
Definition column {A : Type} (k : nat) (rows : list (list A)) : list A :=
  flat_map (fun r => match nth_error r k with Some v => [v] | None => [] end) rows.

Definition min_length {A : Type} (rows : list (list A)) : nat :=
  match rows with
  | [] => 0
  | r :: rs => fold_left (fun m r' => Nat.min m (length r')) rs (length r)
  end.

Definition unzip (l : list (pyval F)) : result (pyval F) :=
  rows <- mapM py_iter l ;;
  Ok (VList (map (fun k => VTuple (column k rows)) (seq 0 (min_length rows)))).

(** [project(s)]: a sequence of points first, a single point when that
    raises [TypeError] or [IndexError]. *)
Definition project (s : pyval F) : result (pyval F) :=
  match (l <- py_iter s ;; ps <- mapM project_point l ;; unzip ps) with
  | Ok v => Ok v
  | Raise TypeError => project_point s
  | Raise IndexError => project_point s
  | Raise e => Raise e
  end.

(** ** Cell geometry *)

(** A numpy vector of two floats, with the elementwise operations the
    module applies to it. *)
Definition vec : Type := (F * F)%type.

Definition vadd (u v : vec) : vec := (fadd (fst u) (fst v), fadd (snd u) (snd v)).
Definition vsub (u v : vec) : vec := (fsub (fst u) (fst v), fsub (snd u) (snd v)).
Definition vdiv (u : vec) (c : F) : vec := (fdiv (fst u) c, fdiv (snd u) c).

(** [triangle_coordinates(i, j, alt)]. *)
Definition triangle_coordinates (i j : Z) (alt : bool) : list vec :=
  let x := fadd (fdiv (float_of_Z i) lit_2) (float_of_Z j) in
  if negb alt then
    [ (x, fmul (float_of_Z i) SQRT3OVER2);
      (fadd x (float_of_Z 1), fmul (float_of_Z i) SQRT3OVER2);
      (fadd x lit_0_5, fmul (float_of_Z (i + 1)) SQRT3OVER2) ]
  else
    [ (fadd x (float_of_Z 1), fmul (float_of_Z i) SQRT3OVER2);
      (fadd x lit_1_5, fmul (float_of_Z (i + 1)) SQRT3OVER2);
      (fadd x lit_0_5, fmul (float_of_Z (i + 1)) SQRT3OVER2) ].

(** [i_j_to_x_y(i, j)]. *)
Definition i_j_to_x_y (i j : Z) : vec :=
  (fadd (fdiv (float_of_Z i) lit_2) (float_of_Z j), fmul SQRT3OVER2 (float_of_Z i)).

(** The module-level offset vectors. *)
Definition _alpha : vec :=
  (float_of_Z 0, fdiv lit_1 (fsqrt (float_of_Z 3))).
Definition _deltaup : vec :=
  (fdiv lit_1 lit_2, fdiv lit_1 (fmul lit_2 (fsqrt (float_of_Z 3)))).
Definition _deltadown : vec :=
  (fdiv lit_1 lit_2, fdiv (fneg lit_1) (fmul lit_2 (fsqrt (float_of_Z 3)))).
Definition _i_vec : vec :=
  (fdiv lit_1 lit_2, fdiv (fsqrt (float_of_Z 3)) lit_2).
Definition _i_vec_down : vec :=
  (fdiv lit_1 lit_2, fdiv (fneg (fsqrt (float_of_Z 3))) lit_2).
Definition _deltaX_vec : vec := (fst _deltadown, float_of_Z 0).

(** [hex_coordinates(i, j, steps)]: the full hexagon, then the edge
    overrides, then the corner overrides, each assignment replacing the
    one before. *)
Definition hex_coordinates (i j steps : Z) : list vec :=
  let ij := i_j_to_x_y i j in
  let coords :=
    [vadd ij _alpha; vadd ij _deltaup; vadd ij _deltadown;
     vsub ij _alpha; vsub ij _deltaup; vsub ij _deltadown] in
  let coords :=
    if (i =? 0) && (negb (j =? steps) && negb (j =? 0)) then
      [vsub ij _deltaX_vec; vsub ij _deltadown; vadd ij _alpha;
       vadd ij _deltaup; vadd ij _deltaX_vec]
    else coords in
  let coords :=
    if (j =? 0) && (negb (i =? steps) && negb (i =? 0)) then
      [vadd ij (vdiv _i_vec lit_2); vadd ij _deltaup; vadd ij _deltadown;
       vsub ij _alpha; vsub ij (vdiv _i_vec lit_2)]
    else coords in
  let coords :=
    if (i + j =? steps) && (negb (i =? 0) && negb (j =? 0)) then
      [vadd ij (vdiv _i_vec_down lit_2); vsub ij _alpha; vsub ij _deltaup;
       vsub ij _deltadown; vsub ij (vdiv _i_vec_down lit_2)]
    else coords in
  let coords :=
    if (i =? steps) && (j =? 0) then
      [ij; vadd ij (vdiv _i_vec_down lit_2); vsub ij _alpha;
       vsub ij (vdiv _i_vec lit_2)]
    else coords in
  let coords :=
    if (i =? 0) && (j =? 0) then
      [ij; vadd ij (vdiv _i_vec lit_2); vadd ij _deltaup; vadd ij _deltaX_vec]
    else coords in
  let coords :=
    if (j =? steps) && (i =? 0) then
      [ij; vsub ij _deltaX_vec; vsub ij _deltadown;
       vsub ij (vdiv _i_vec_down lit_2)]
    else coords in
  coords.

(** ** Colours and heatmaps *)

Section Collaborators.

(** A colour map takes a number (an index or a position in [0, 1]) to
    an RGBA array. *)
Definition colormap : Type := pynum F -> list F.

(** [sns.cubehelix_palette(as_cmap=True)], [plt.get_cmap] and
    [matplotlib.colors.rgb2hex]. *)
Variable DEFAULT_COLOR_MAP : colormap.
Variable get_cmap : string -> colormap.
Variable rgb2hex : list F -> string.

(** [np.array(rgba).flatten()] of a one-dimensional array. *)
Definition np_flatten (rgba : list F) : list F := rgba.

(** [colormapper(x, a, b, cmap)]. *)
Definition colormapper (x a b : pynum F) (cmap : option colormap) : result string :=
  let cmap := match cmap with Some c => c | None => DEFAULT_COLOR_MAP end in
  rgba <- (if num_eqb (num_sub b a) (PInt 0) then Ok (cmap (PInt 0))
           else t <- num_truediv (num_sub x a) (to_float (num_sub b a)) ;;
                Ok (cmap (PFloat t))) ;;
  Ok (rgb2hex (np_flatten rgba)).

(** [plt.subplot()]: a fresh surface. *)
Definition plt_subplot : axes F := {| ax_fills := []; ax_colorbars := [] |}.

Definition ax_fill (ax : axes F) (x y : list F) (color : string) : axes F :=
  {| ax_fills := ax_fills ax ++
       [{| fill_x := x; fill_y := y; facecolor := color; edgecolor := color |}];
     ax_colorbars := ax_colorbars ax |}.

Definition plt_colorbar (ax : axes F) (a b : pynum F) (scientific : bool) : axes F :=
  {| ax_fills := ax_fills ax;
     ax_colorbars := ax_colorbars ax ++
       [{| cb_vmin := a; cb_vmax := b; cb_format := "%.4f"%string;
           cb_numticks := 7; cb_scientific := scientific |}] |}.

(** The colour domain of [heatmap]: the override, or the data's own
    minimum and maximum. *)
Definition heatmap_domain (d : dict (pynum F))
    (min_max_scale : option (pynum F * pynum F)) : result (pynum F * pynum F) :=
  match min_max_scale with
  | None =>
      a <- py_min (dict_values d) ;;
      b <- py_max (dict_values d) ;;
      Ok (a, b)
  | Some mm => Ok (fst mm, snd mm)
  end.

(** The loop of [heatmap] over [d.items()]; [d[i, j]] is the value [v]
    of the item at hand, and [x, y = unzip(vertices)] splits the rows of
    the vertex array into its two columns. *)
Fixpoint heatmap_fill (items : list ((Z * Z) * pynum F)) (steps : Z)
    (a b : pynum F) (cmap : colormap) (ax : axes F) : result (axes F) :=
  match items with
  | [] => Ok ax
  | ((i, j), v) :: rest =>
      let vertices := hex_coordinates i j steps in
      let (x, y) := List.split vertices in
      color <- colormapper v a b (Some cmap) ;;
      heatmap_fill rest steps a b cmap (ax_fill ax x y color)
  end.

(** The truth value of a string argument: [None] and the empty string
    count as not given. *)
Definition non_empty (name : option string) : option string :=
  match name with
  | Some EmptyString => None
  | n => n
  end.

(** [heatmap(d, steps, cmap_name, boundary, ax, scientific, min_max_scale)];
    the result is the surface after the call. *)
Definition heatmap (d : dict (pynum F)) (steps : Z) (cmap_name : option string)
    (boundary : bool) (ax : option (axes F)) (scientific : bool)
    (min_max_scale : option (pynum F * pynum F)) : result (axes F) :=
  let ax := match ax with Some ax => ax | None => plt_subplot end in
  let cmap := match non_empty cmap_name with
              | None => DEFAULT_COLOR_MAP
              | Some name => get_cmap name
              end in
  ab <- heatmap_domain d min_max_scale ;;
  ax <- heatmap_fill d steps (fst ab) (snd ab) cmap ax ;;
  Ok (plt_colorbar ax (fst ab) (snd ab) scientific).

(** The loop of [plot_heatmap] over the lattice. *)
Fixpoint sample (func : list F -> pynum F) (pts : list triple)
    (d : dict (pynum F)) : result (dict (pynum F)) :=
  match pts with
  | [] => Ok d
  | (x1, x2, x3) :: rest =>
      p <- normalize [PInt x1; PInt x2; PInt x3] ;;
      sample func rest (dict_set d (x1, x2) (func p))
  end.

(** [plot_heatmap(func, steps, boundary, cmap_name, ax, **kwargs)], the
    keyword arguments being those of [heatmap], which is called without
    [boundary] and so with its default.  The Python function returns
    nothing; the result here is the surface after the call. *)
Definition plot_heatmap (func : list F -> pynum F) (steps : Z) (boundary : bool)
    (cmap_name : option string) (ax : option (axes F)) (scientific : bool)
    (min_max_scale : option (pynum F * pynum F)) : result (axes F) :=
  d <- sample func (simplex_points steps boundary) [] ;;
  heatmap d steps cmap_name true ax scientific min_max_scale.

End Collaborators.

End Embedding.

(** ** The two arithmetics *)

(** Exact arithmetic. *)
#[export] Instance Exact : PyFloat R := {|
  float_of_Z := IZR;
  fadd := Rplus;
  fsub := Rminus;
  fmul := Rmult;
  fdiv := Rdiv;
  fneg := Ropp;
  fsqrt := R_sqrt.sqrt;
  feqb := fun x y => if Req_dec_T x y then true else false;
  fltb := fun x y => if Rlt_dec x y then true else false;
  Z_ltb_float := fun n x => if Rlt_dec (IZR n) x then true else false;
  float_ltb_Z := fun x n => if Rlt_dec x (IZR n) then true else false;
  Z_eqb_float := fun n x => if Req_dec_T (IZR n) x then true else false
|}.

(** [float(n)] in binary64: the nearest float, ties to even.  Beyond the
    range of binary64 this is an infinity, where CPython raises
    [OverflowError]; nothing below converts an integer that large. *)
Definition binary64_of_Z (n : Z) : float :=
  SF2Prim (binary_normalize prec emax n 0 false).

(** The integer [n] against the float [x], both taken exactly: [None]
    when [x] is not a number. *)
Definition binary64_compare_Z (n : Z) (x : float) : option comparison :=
  match Prim2SF x with
  | S754_zero _ => Some (n ?= 0)
  | S754_infinity s => Some (if s then Gt else Lt)
  | S754_nan => None
  | S754_finite s m e =>
      let v := if s then Z.neg m else Z.pos m in
      if 0 <=? e then Some (n ?= v * 2 ^ e) else Some (n * 2 ^ (- e) ?= v)
  end.

(** IEEE binary64. *)
#[export] Instance Binary64 : PyFloat float := {|
  float_of_Z := binary64_of_Z;
  fadd := PrimFloat.add;
  fsub := PrimFloat.sub;
  fmul := PrimFloat.mul;
  fdiv := PrimFloat.div;
  fneg := PrimFloat.opp;
  fsqrt := PrimFloat.sqrt;
  feqb := PrimFloat.eqb;
  fltb := PrimFloat.ltb;
  Z_ltb_float := fun n x =>
    match binary64_compare_Z n x with Some Lt => true | _ => false end;
  float_ltb_Z := fun x n =>
    match binary64_compare_Z n x with Some Gt => true | _ => false end;
  Z_eqb_float := fun n x =>
    match binary64_compare_Z n x with Some Eq => true | _ => false end
|}.

(** The exact value of a finite binary64 float. *)
Definition binary64_to_Q (x : float) : option Q :=
  match Prim2SF x with
  | S754_zero _ => Some 0%Q
  | S754_finite s m e =>
      Some ((if s then -1 else 1) * (Zpos m # 1) * Qpower 2 e)%Q
  | _ => None
  end.

(** The exact sum of a list of finite floats. *)
Fixpoint exact_sum (l : list float) : option Q :=
  match l with
  | [] => Some 0%Q
  | x :: r =>
      match binary64_to_Q x, exact_sum r with
      | Some q, Some t => Some (q + t)%Q
      | _, _ => None
      end
  end.

(** The sum a left-to-right loop computes in binary64. *)
Definition float_sum (l : list float) : float :=
  fold_left PrimFloat.add l (binary64_of_Z 0).

(** ** Stand-ins for the collaborators

    A grey ramp for the colour map and a two-tone encoder for [rgb2hex],
    used to run the drivers on concrete input. *)
Definition gray_cmap {F : Type} {PF : PyFloat F} : colormap :=
  fun t => [to_float t; to_float t; to_float t; lit_1].

Definition named_cmap {F : Type} {PF : PyFloat F} (name : string) : colormap :=
  gray_cmap.

Definition two_tone_hex {F : Type} {PF : PyFloat F} (rgba : list F) : string :=
  match rgba with
  | r :: _ => if fltb r lit_0_5 then "#000000"%string else "#ffffff"%string
  | [] => "#000000"%string
  end.

(** A value that is a number. *)
Definition is_num {F : Type} (v : pyval F) : Prop := exists n, v = VNum n.

(** The exact sum of a list of reals. *)
Definition Rsum (l : list R) : R := fold_right Rplus 0%R l.

(** ** Plane geometry for the triangular cells *)

(** The point [p] lies in the closed triangle with the three vertices
    [t]: it is a convex combination of them. *)
Definition in_triangle (p : R * R) (t : list (R * R)) : Prop :=
  match t with
  | [A; B; C] =>
      exists u v w : R,
        (0 <= u /\ 0 <= v /\ 0 <= w /\ u + v + w = 1 /\
         fst p = u * fst A + v * fst B + w * fst C /\
         snd p = u * snd A + v * snd B + w * snd C)%R
  | _ => False
  end.

(** The lattice cell (i, j): the rhombus spanned by the lattice points
    (i, j), (i, j+1), (i+1, j), (i+1, j+1), that is the image of the unit
    square at (i, j) under the map of [i_j_to_x_y]. *)
Definition in_cell (i j : Z) (p : R * R) : Prop :=
  exists s t : R,
    (0 <= s <= 1 /\ 0 <= t <= 1 /\
     fst p = (IZR i + t) / 2 + (IZR j + s) /\
     snd p = sqrt 3 / 2 * (IZR i + t))%R.

(** ** More about the lattice *)

(** All three components are strictly positive. *)
Definition interior (t : triple) : bool :=
  (0 <? x1_of t) && (0 <? x2_of t) && (0 <? x3_of t).

(** ** More about projection *)

(** The two coordinates [project_point] computes from numbers. *)
Definition proj_x {F : Type} {PF : PyFloat F} (b c : pynum F) : pynum F :=
  num_mul (PFloat lit_0_5) (num_add (num_mul (PInt 2) b) c).

Definition proj_y {F : Type} {PF : PyFloat F} (c : pynum F) : pynum F :=
  num_mul (PFloat SQRT3OVER2) c.

(** A point given as a tuple of numbers. *)
Definition num_tuple {F : Type} (ns : list (pynum F)) : pyval F :=
  VTuple (map VNum ns).

(** A well-formed point: the tuple (a, b, c). *)
Definition point3 {F : Type} (p : pynum F * pynum F * pynum F) : pyval F :=
  num_tuple [fst (fst p); snd (fst p); snd p].

(** ** The simplex in the plane *)

(** The closed triangle with corners (0, 0), (S, 0) and
    (S/2, S*sqrt(3)/2): above the base and below the two sides. *)
Definition in_simplex (S : R) (p : R * R) : Prop :=
  (0 <= snd p /\ snd p <= sqrt 3 * fst p /\ snd p <= sqrt 3 * (S - fst p))%R.

(** ** What a heatmap draws *)

(** The cell that [heatmap] fills for one item of the mapping. *)
Definition drawn_as {F : Type} {PF : PyFloat F}
    (DEFAULT_COLOR_MAP : colormap) (rgb2hex : list F -> string)
    (steps : Z) (a b : pynum F) (cmap : colormap)
    (item : (Z * Z) * pynum F) (f : fill_call F) : Prop :=
  fill_x f = fst (List.split (hex_coordinates (fst (fst item)) (snd (fst item)) steps)) /\
  fill_y f = snd (List.split (hex_coordinates (fst (fst item)) (snd (fst item)) steps)) /\
  colormapper DEFAULT_COLOR_MAP rgb2hex (snd item) a b (Some cmap) = Ok (facecolor f) /\
  edgecolor f = facecolor f.

(** The barycentric point of a lattice triple, and the mapping that
    sampling a function over the lattice builds, in exact arithmetic. *)
Definition barycentric (steps : Z) (t : triple) : list R :=
  [ (IZR (x1_of t) / IZR steps)%R; (IZR (x2_of t) / IZR steps)%R;
    (IZR (x3_of t) / IZR steps)%R ].

Definition sampled (func : list R -> pynum R) (steps : Z) (boundary : bool)
  : dict (pynum R) :=
  map (fun t => ((x1_of t, x2_of t), func (barycentric steps t)))
      (simplex_points steps boundary).

(** ** Line plots

    [draw_boundary], [plot] and [plot_multiple] draw lines and set the
    axis limits.  These calls are recorded on a record of their own:
    they and the heatmap functions never act on the same data of the
    surface. *)

(** One call of [ax.plot(xs, ys, ...)]. *)
Record line_call (F : Type) : Type := {
  line_x : pyval F;
  line_y : pyval F;
  line_color : option string;
  line_width : F
}.

(** The lines drawn so far, oldest first, and the axis limits. *)
Record line_axes (F : Type) : Type := {
  la_lines : list (line_call F);
  la_ylim : option (F * F);
  la_xlim : option (F * F)
}.

Section LinePlots.

Context {F : Type} {PF : PyFloat F}.

(** [plt.subplot()] for line plots. *)
Definition plt_subplot_lines : line_axes F :=
  {| la_lines := []; la_ylim := None; la_xlim := None |}.

(** [math.sqrt(x)], which refuses a negative argument. *)
Definition math_sqrt (x : F) : result F :=
  if fltb x (float_of_Z 0) then Raise ValueError else Ok (fsqrt x).

(** The literals 0.05, 0.90 and 1.05: the floats nearest to 1/20, 9/10
    and 21/20, which is what the correctly rounded quotient is. *)
Definition lit_0_05 : F := fdiv (float_of_Z 1) (float_of_Z 20).
Definition lit_0_90 : F := fdiv (float_of_Z 9) (float_of_Z 10).
Definition lit_1_05 : F := fdiv (float_of_Z 21) (float_of_Z 20).

(** [draw_boundary(scale, linewidth, color, ax)]. *)
Definition draw_boundary (scale : pynum F) (linewidth : F) (color : string)
    (ax : option (line_axes F)) : result (line_axes F) :=
  let ax := match ax with Some ax => ax | None => plt_subplot_lines end in
  let scale := to_float scale in
  top <- math_sqrt (fmul (fmul scale scale) (float_of_Z 3)) ;;
  let xs := VList [VNum (PInt 0); VNum (PFloat scale);
                   VNum (PFloat (fdiv scale (float_of_Z 2))); VNum (PInt 0)] in
  let ys := VList [VNum (PInt 0); VNum (PInt 0);
                   VNum (PFloat (fdiv top (float_of_Z 2))); VNum (PInt 0)] in
  Ok {| la_lines := la_lines ax ++
          [{| line_x := xs; line_y := ys; line_color := Some color;
              line_width := linewidth |}];
        la_ylim := Some (fmul (fneg lit_0_05) scale, fmul lit_0_90 scale);
        la_xlim := Some (fmul (fneg lit_0_05) scale, fmul lit_1_05 scale) |}.

(** [xs, ys = v]: exactly two items. *)
Definition unpack2 (v : pyval F) : result (pyval F * pyval F) :=
  l <- py_iter v ;;
  match l with
  | [x; y] => Ok (x, y)
  | _ => Raise ValueError
  end.

(** The truth value of the [color] argument: [None] and the empty
    string count as no colour. *)
Definition color_given (color : option string) : option string :=
  match color with
  | Some EmptyString => None
  | c => c
  end.

(** [plot(t, color, linewidth, ax)]. *)
Definition plot (t : pyval F) (color : option string) (linewidth : F)
    (ax : option (line_axes F)) : result (line_axes F) :=
  let ax := match ax with Some ax => ax | None => plt_subplot_lines end in
  p <- project t ;;
  xy <- unpack2 p ;;
  Ok {| la_lines := la_lines ax ++
          [{| line_x := fst xy; line_y := snd xy;
              line_color := color_given color; line_width := linewidth |}];
        la_ylim := la_ylim ax;
        la_xlim := la_xlim ax |}.

(** The loop of [plot_multiple] over the trajectories. *)
Fixpoint plot_each (trajectories : list (pyval F)) (linewidth : F)
    (ax : line_axes F) : result (line_axes F) :=
  match trajectories with
  | [] => Ok ax
  | t :: rest =>
      ax' <- plot t None linewidth (Some ax) ;;
      plot_each rest linewidth ax'
  end.

(** [plot_multiple(trajectories, linewidth, ax)]; the boundary is drawn
    with the defaults of [draw_boundary]: scale 1.0, line width 2.0,
    black. *)
Definition plot_multiple (trajectories : list (pyval F)) (linewidth : F)
    (ax : option (line_axes F)) : result (line_axes F) :=
  let ax := match ax with Some ax => ax | None => plt_subplot_lines end in
  ax <- plot_each trajectories linewidth ax ;;
  draw_boundary (PFloat lit_1) lit_2 "black"%string (Some ax).

(** The line [plot] draws for a trajectory of well-formed points. *)
Definition trajectory_line (linewidth : F)
    (pts : list (pynum F * pynum F * pynum F)) : line_call F :=
  {| line_x := VTuple (map (fun p => VNum (proj_x (snd (fst p)) (snd p))) pts);
     line_y := VTuple (map (fun p => VNum (proj_y (snd p))) pts);
     line_color := None;
     line_width := linewidth |}.

End LinePlots.

(** The numbers held by a sequence, as reals. *)
Definition coords (v : pyval R) : list R :=
  match v with
  | VNum _ => []
  | VTuple l | VList l =>
      flat_map (fun e => match e with VNum n => [to_float n] | _ => [] end) l
  end.

(** The closed path through the corners of the simplex of side [s]. *)
Definition corner_path (s : R) : pyval R :=
  VList [point3 (PFloat s, PInt 0, PInt 0); point3 (PInt 0, PFloat s, PInt 0);
         point3 (PInt 0, PInt 0, PFloat s); point3 (PFloat s, PInt 0, PInt 0)].

(** The squared distance of two points of the plane. *)
Definition dist2 (p q : R * R) : R :=
  ((fst p - fst q) * (fst p - fst q) + (snd p - snd q) * (snd p - snd q))%R.

(** * Properties *)

(** *** Facts about [py_range] *)

Lemma py_range_length (a b : Z) :
  length (py_range a b) = Z.to_nat (b - a).
Proof.
  unfold py_range. now rewrite length_map, length_seq.
Qed.

Lemma py_range_In (a b x : Z) :
  In x (py_range a b) <-> a <= x < b.
Proof.
  unfold py_range. rewrite in_map_iff. split.
  - intros (k & <- & Hk). apply in_seq in Hk. lia.
  - intros Hx. exists (Z.to_nat (x - a)). split; [lia|].
    apply in_seq. lia.
Qed.

Lemma py_range_snoc (a : Z) (n : nat) :
  py_range a (a + Z.of_nat (S n))
  = py_range a (a + Z.of_nat n) ++ [a + Z.of_nat n].
Proof.
  unfold py_range.
  replace (Z.to_nat (a + Z.of_nat (S n) - a)) with (S n) by lia.
  replace (Z.to_nat (a + Z.of_nat n - a)) with n by lia.
  rewrite seq_S, map_app. reflexivity.
Qed.

Lemma py_range_empty (a b : Z) : b <= a -> py_range a b = [].
Proof.
  intros Hab. unfold py_range.
  replace (Z.to_nat (b - a)) with 0%nat by lia. reflexivity.
Qed.

Lemma StronglySorted_app {A : Type} (R : A -> A -> Prop) (l1 l2 : list A) :
  StronglySorted R l1 -> StronglySorted R l2 ->
  (forall x y, In x l1 -> In y l2 -> R x y) ->
  StronglySorted R (l1 ++ l2).
Proof.
  induction l1 as [|a l1 IH]; intros H1 H2 H12; simpl; [assumption|].
  inversion H1 as [|? ? Hs Hf]; subst. constructor.
  - apply IH; auto. intros x y Hx Hy. apply H12; [now right|assumption].
  - apply Forall_app. split; [assumption|].
    apply Forall_forall. intros y Hy. apply H12; [now left|assumption].
Qed.

Lemma py_range_sorted (a b : Z) : StronglySorted Z.lt (py_range a b).
Proof.
  destruct (Z_le_gt_dec b a) as [Hle|Hgt].
  - rewrite py_range_empty by assumption. constructor.
  - replace b with (a + Z.of_nat (Z.to_nat (b - a))) by lia.
    induction (Z.to_nat (b - a)) as [|n IH].
    + rewrite py_range_empty by lia. constructor.
    + rewrite py_range_snoc. apply StronglySorted_app; auto.
      * repeat constructor.
      * intros x y Hx [<-|[]]. apply py_range_In in Hx. lia.
Qed.

Lemma StronglySorted_map {A B : Type} (R : A -> A -> Prop) (Q : B -> B -> Prop)
    (f : A -> B) (l : list A) :
  (forall x y, In x l -> In y l -> R x y -> Q (f x) (f y)) ->
  StronglySorted R l -> StronglySorted Q (map f l).
Proof.
  induction l as [|a l IH]; intros Hf Hs; simpl; [constructor|].
  inversion Hs as [|? ? Hs' Hall]; subst. constructor.
  - apply IH; auto. intros x y Hx Hy. apply Hf; now right.
  - apply Forall_forall. intros y Hy. apply in_map_iff in Hy.
    destruct Hy as (x & <- & Hx). apply Hf; [now left|now right|].
    rewrite Forall_forall in Hall. now apply Hall.
Qed.

Lemma StronglySorted_flat_map {A B : Type} (R : A -> A -> Prop)
    (Q : B -> B -> Prop) (f : A -> list B) (l : list A) :
  (forall x, In x l -> StronglySorted Q (f x)) ->
  (forall x y u v, In x l -> In y l -> R x y -> In u (f x) -> In v (f y) -> Q u v) ->
  StronglySorted R l -> StronglySorted Q (flat_map f l).
Proof.
  induction l as [|a l IH]; intros Hin Hcross Hs; simpl; [constructor|].
  inversion Hs as [|? ? Hs' Hall]; subst.
  apply StronglySorted_app.
  - apply Hin. now left.
  - apply IH; auto.
    + intros x Hx. apply Hin. now right.
    + intros x y u v Hx Hy. apply Hcross; now right.
  - intros u v Hu Hv. apply in_flat_map in Hv. destruct Hv as (y & Hy & Hv).
    apply (Hcross a y); auto; [now left|now right|].
    rewrite Forall_forall in Hall. now apply Hall.
Qed.

(** Membership in the enumeration, spelled out. *)
Lemma simplex_points_In (steps : Z) (boundary : bool) (t : triple) :
  In t (simplex_points steps boundary) <->
  let start := if boundary then 0 else 1 in
  start <= x1_of t < steps + (1 - start) /\
  start <= x2_of t < steps + (1 - start) - x1_of t /\
  x3_of t = steps - x1_of t - x2_of t.
Proof.
  unfold simplex_points. cbv zeta. rewrite in_flat_map. split.
  - intros (x1 & H1 & Ht). apply in_map_iff in Ht.
    destruct Ht as (x2 & <- & H2).
    apply py_range_In in H1. apply py_range_In in H2.
    unfold x1_of, x2_of, x3_of. cbn [fst snd]. lia.
  - destruct t as [[x1 x2] x3]. unfold x1_of, x2_of, x3_of. cbn [fst snd].
    intros (H1 & H2 & ->). exists x1. split.
    + now apply py_range_In.
    + apply in_map_iff. exists x2. split; [reflexivity|].
      now apply py_range_In.
Qed.

(** Twice the number of triples produced by the first [n] rounds of the
    outer loop, when the inner range of round [k] has [c - k] elements. *)
Lemma rounds_length (A : Type) (g : Z -> Z -> A) (s c : Z) (n : nat) :
  Z.of_nat n <= c + 1 ->
  2 * Z.of_nat (length (flat_map
        (fun x1 => map (g x1) (py_range s (c + 2 * s - x1)))
        (py_range s (s + Z.of_nat n))))
  = Z.of_nat n * (2 * c - Z.of_nat n + 1).
Proof.
  induction n as [|n IH]; intros Hn.
  - rewrite py_range_empty by lia. reflexivity.
  - rewrite py_range_snoc, flat_map_app, length_app. cbn [flat_map].
    rewrite app_nil_r, length_map, py_range_length.
    specialize (IH ltac:(lia)).
    rewrite Nat2Z.inj_add, Z2Nat.id by lia. nia.
Qed.

Lemma simplex_points_boundary_length (N : Z) :
  0 <= N ->
  2 * Z.of_nat (length (simplex_points N true)) = (N + 1) * (N + 2).
Proof.
  intros HN. unfold simplex_points. cbv zeta.
  pose proof (rounds_length (fun x1 x2 => (x1, x2, N - x1 - x2)) 0 (N + 1)
                (Z.to_nat (N + 1))) as H.
  rewrite Z2Nat.id in H by lia. cbv beta in H.
  replace (N + (1 - 0)) with (0 + (N + 1)) by lia.
  rewrite (flat_map_ext
             (fun x1 => map (fun x2 => (x1, x2, N - x1 - x2))
                            (py_range 0 (0 + (N + 1) - x1)))
             (fun x1 => map (fun x2 => (x1, x2, N - x1 - x2))
                            (py_range 0 (N + 1 + 2 * 0 - x1)))).
  - etransitivity; [apply H; lia|ring].
  - intros x1. f_equal. f_equal. lia.
Qed.

Lemma simplex_points_interior_length (N : Z) :
  2 <= N ->
  2 * Z.of_nat (length (simplex_points N false)) = (N - 1) * (N - 2).
Proof.
  intros HN. unfold simplex_points. cbv zeta.
  pose proof (rounds_length (fun x1 x2 => (x1, x2, N - x1 - x2)) 1 (N - 2)
                (Z.to_nat (N - 1))) as H.
  rewrite Z2Nat.id in H by lia. cbv beta in H.
  replace (N + (1 - 1)) with (1 + (N - 1)) by lia.
  rewrite (flat_map_ext
             (fun x1 => map (fun x2 => (x1, x2, N - x1 - x2))
                            (py_range 1 (1 + (N - 1) - x1)))
             (fun x1 => map (fun x2 => (x1, x2, N - x1 - x2))
                            (py_range 1 (N - 2 + 2 * 1 - x1)))).
  - etransitivity; [apply H; lia|ring].
  - intros x1. f_equal. f_equal. lia.
Qed.

(** C3.  With the boundary, [simplex_points(N)] yields (N+1)(N+2)/2
    triples; without it, (N-1)(N-2)/2 when N >= 2 and none otherwise. *)
Theorem simplex_points_count (N : Z) :
  0 <= N ->
  Z.of_nat (length (simplex_points N true)) = (N + 1) * (N + 2) / 2 /\
  (2 <= N ->
   Z.of_nat (length (simplex_points N false)) = (N - 1) * (N - 2) / 2) /\
  (N < 2 -> simplex_points N false = []).
Proof.
  intros HN. repeat split.
  - pose proof (simplex_points_boundary_length HN) as H.
    rewrite <- H, Z.mul_comm, Z.div_mul; lia.
  - intros H2. pose proof (simplex_points_interior_length H2) as H.
    rewrite <- H, Z.mul_comm, Z.div_mul; lia.
  - intros Hlt. destruct (simplex_points N false) as [|t l] eqn:E; [reflexivity|].
    assert (Hin : In t (simplex_points N false)) by (rewrite E; now left).
    apply simplex_points_In in Hin. cbv zeta in Hin. lia.
Qed.

Lemma simplex_points_count_witness :
  Z.of_nat (length (simplex_points 4 true)) = (4 + 1) * (4 + 2) / 2 /\
  (2 <= 4 ->
   Z.of_nat (length (simplex_points 4 false)) = (4 - 1) * (4 - 2) / 2) /\
  (4 < 2 -> simplex_points 4 false = []).
Proof.
  apply (@simplex_points_count 4). lia.
Defined.

(** C4.  Every triple yielded by [simplex_points(steps, boundary)] sums
    to [steps] and has non-negative components; without the boundary
    every component is strictly positive. *)
Theorem simplex_points_invariant (steps : Z) (boundary : bool) (t : triple) :
  In t (simplex_points steps boundary) ->
  x1_of t + x2_of t + x3_of t = steps /\
  0 <= x1_of t /\ 0 <= x2_of t /\ 0 <= x3_of t /\
  (boundary = false -> 0 < x1_of t /\ 0 < x2_of t /\ 0 < x3_of t).
Proof.
  intros Hin. apply simplex_points_In in Hin. cbv zeta in Hin.
  destruct boundary; repeat split; try lia; intros; discriminate.
Qed.

Lemma simplex_points_invariant_witness :
  x1_of (1, 2, 1) + x2_of (1, 2, 1) + x3_of (1, 2, 1) = 4 /\
  0 <= x1_of (1, 2, 1) /\ 0 <= x2_of (1, 2, 1) /\ 0 <= x3_of (1, 2, 1) /\
  (false = false ->
   0 < x1_of (1, 2, 1) /\ 0 < x2_of (1, 2, 1) /\ 0 < x3_of (1, 2, 1)).
Proof.
  apply (@simplex_points_invariant 4 false (1, 2, 1)).
  vm_compute. tauto.
Defined.

(** C5.  The triples come out in strictly increasing lexicographic order
    of (x1, x2), with x3 = steps - x1 - x2; equal arguments give the same
    sequence. *)
Theorem simplex_points_order (steps : Z) (boundary : bool) :
  StronglySorted lex12 (simplex_points steps boundary) /\
  Forall (fun t => x3_of t = steps - x1_of t - x2_of t)
         (simplex_points steps boundary) /\
  (forall steps' boundary',
      steps' = steps -> boundary' = boundary ->
      simplex_points steps' boundary' = simplex_points steps boundary).
Proof.
  split; [|split].
  - unfold simplex_points. cbv zeta.
    apply StronglySorted_flat_map with (R := Z.lt).
    + intros x1 _. apply StronglySorted_map with (R := Z.lt).
      * intros x y _ _ Hxy. right. unfold x1_of, x2_of. cbn [fst snd]. lia.
      * apply py_range_sorted.
    + intros x y u v _ _ Hxy Hu Hv.
      apply in_map_iff in Hu. destruct Hu as (a & <- & _).
      apply in_map_iff in Hv. destruct Hv as (b & <- & _).
      left. unfold x1_of. cbn [fst snd]. exact Hxy.
    + apply py_range_sorted.
  - apply Forall_forall. intros t Hin.
    apply simplex_points_In in Hin. cbv zeta in Hin. tauto.
  - intros steps' boundary' -> ->. reflexivity.
Qed.

(** ** Hexagonal cells *)

Ltac case_eqb :=
  repeat match goal with
         | |- context [Z.eqb ?a ?b] => destruct (Z.eqb_spec a b)
         end.

(** C1.  For steps = S >= 0 the three corners get 4 vertices, an
    interior lattice point gets 6, and a boundary point that is not a
    corner gets 5: the corner assignments come last and win. *)
Theorem hex_coordinates_vertex_count {F : Type} {PF : PyFloat F} (S i j : Z) :
  0 <= S ->
  length (hex_coordinates (F := F) 0 0 S) = 4%nat /\
  length (hex_coordinates (F := F) S 0 S) = 4%nat /\
  length (hex_coordinates (F := F) 0 S S) = 4%nat /\
  (0 < i -> 0 < j -> i + j < S ->
   length (hex_coordinates (F := F) i j S) = 6%nat) /\
  ((i = 0 /\ 0 < j < S) \/ (j = 0 /\ 0 < i < S) \/ (i + j = S /\ 0 < i /\ 0 < j) ->
   length (hex_coordinates (F := F) i j S) = 5%nat).
Proof.
  intros HS. unfold hex_coordinates. cbv zeta.
  repeat split; intros; case_eqb; cbn [andb negb length]; try reflexivity; lia.
Qed.

Lemma hex_coordinates_vertex_count_witness :
  length (hex_coordinates (F := float) 0 0 3) = 4%nat /\
  length (hex_coordinates (F := float) 3 0 3) = 4%nat /\
  length (hex_coordinates (F := float) 0 3 3) = 4%nat /\
  (0 < 1 -> 0 < 1 -> 1 + 1 < 3 ->
   length (hex_coordinates (F := float) 1 1 3) = 6%nat) /\
  ((1 = 0 /\ 0 < 1 < 3) \/ (1 = 0 /\ 0 < 1 < 3) \/ (1 + 1 = 3 /\ 0 < 1 /\ 0 < 1) ->
   length (hex_coordinates (F := float) 1 1 3) = 5%nat).
Proof.
  apply (@hex_coordinates_vertex_count float Binary64 3 1 1). lia.
Defined.

Example hex_coordinates_bottom_edge :
  length (hex_coordinates (F := float) 0 1 3) = 5%nat /\
  length (hex_coordinates (F := float) 2 0 3) = 5%nat /\
  length (hex_coordinates (F := float) 1 2 3) = 5%nat.
Proof. repeat split. Qed.

(** ** Projection *)

Local Open Scope R_scope.

Lemma lit_0_5_exact : lit_0_5 (F := R) = / 2.
Proof. unfold lit_0_5. cbn. lra. Qed.

Lemma SQRT3OVER2_exact : SQRT3OVER2 (F := R) = sqrt 3 / 2.
Proof. reflexivity. Qed.

Lemma cartesian_eq (x y x' y' : R) :
  x = x' -> y = y' ->
  Ok (VTuple [VNum (PFloat x); VNum (PFloat y)])
  = Ok (VTuple [VNum (PFloat x'); VNum (PFloat y')]).
Proof. now intros -> ->. Qed.

(** C2.  In exact arithmetic [project_point] sends (a, b, c) to
    (b + c/2, c * sqrt(3)/2); the corners (1,0,0), (0,1,0), (0,0,1) go to
    (0,0), (1,0), (1/2, sqrt(3)/2), and the same three calls evaluated in
    binary64 give (0,0), (1,0), (0.5, SQRT3OVER2). *)
Theorem project_point_closed_form :
  (forall a b c : pynum R,
      project_point (VTuple [VNum a; VNum b; VNum c])
      = Ok (VTuple [VNum (PFloat (to_float b + to_float c / 2));
                    VNum (PFloat (to_float c * sqrt 3 / 2))])) /\
  project_point (F := R) (VTuple [VNum (PInt 1); VNum (PInt 0); VNum (PInt 0)])
  = Ok (VTuple [VNum (PFloat 0); VNum (PFloat 0)]) /\
  project_point (F := R) (VTuple [VNum (PInt 0); VNum (PInt 1); VNum (PInt 0)])
  = Ok (VTuple [VNum (PFloat 1); VNum (PFloat 0)]) /\
  project_point (F := R) (VTuple [VNum (PInt 0); VNum (PInt 0); VNum (PInt 1)])
  = Ok (VTuple [VNum (PFloat (1 / 2)); VNum (PFloat (sqrt 3 / 2))]) /\
  project_point (F := float) (VTuple [VNum (PInt 1); VNum (PInt 0); VNum (PInt 0)])
  = Ok (VTuple [VNum (PFloat 0%float); VNum (PFloat 0%float)]) /\
  project_point (F := float) (VTuple [VNum (PInt 0); VNum (PInt 1); VNum (PInt 0)])
  = Ok (VTuple [VNum (PFloat 1%float); VNum (PFloat 0%float)]) /\
  project_point (F := float) (VTuple [VNum (PInt 0); VNum (PInt 0); VNum (PInt 1)])
  = Ok (VTuple [VNum (PFloat 0.5%float); VNum (PFloat SQRT3OVER2)]).
Proof.
  assert (Hgen : forall a b c : pynum R,
      project_point (VTuple [VNum a; VNum b; VNum c])
      = Ok (VTuple [VNum (PFloat (to_float b + to_float c / 2));
                    VNum (PFloat (to_float c * sqrt 3 / 2))])).
  { intros a b c. unfold project_point.
    cbn [py_getitem nth_error bind py_mul py_add].
    repeat f_equal.
    - destruct b as [m|y], c as [n|z];
        cbn [num_mul num_add to_float float_of_Z Exact fmul fadd];
        rewrite lit_0_5_exact, ?plus_IZR, ?mult_IZR; f_equal; lra.
    - rewrite SQRT3OVER2_exact. destruct c as [n|z];
        cbn [num_mul to_float float_of_Z Exact fmul]; f_equal; lra. }
  split; [exact Hgen|].
  repeat split; rewrite Hgen; cbn [to_float float_of_Z Exact];
    apply cartesian_eq; lra.
Qed.

(** ** Triangular cells *)

Lemma triangle_eq (x1 y1 x2 y2 x3 y3 x1' y1' x2' y2' x3' y3' : R) :
  x1 = x1' -> y1 = y1' -> x2 = x2' -> y2 = y2' -> x3 = x3' -> y3 = y3' ->
  [(x1, y1); (x2, y2); (x3, y3)] = [(x1', y1'); (x2', y2'); (x3', y3')].
Proof. now intros -> -> -> -> -> ->. Qed.

Lemma triangle_coordinates_std (i j : Z) :
  triangle_coordinates (F := R) i j false
  = [ (IZR i / 2 + IZR j, IZR i * sqrt 3 / 2);
      (IZR i / 2 + IZR j + 1, IZR i * sqrt 3 / 2);
      (IZR i / 2 + IZR j + 1 / 2, (IZR i + 1) * sqrt 3 / 2) ].
Proof.
  unfold triangle_coordinates, SQRT3OVER2, lit_0_5, lit_2.
  cbn [negb float_of_Z fadd fdiv fmul fsqrt Exact].
  rewrite plus_IZR. apply triangle_eq; lra.
Qed.

Lemma triangle_coordinates_alt (i j : Z) :
  triangle_coordinates (F := R) i j true
  = [ (IZR i / 2 + IZR j + 1, IZR i * sqrt 3 / 2);
      (IZR i / 2 + IZR j + 3 / 2, (IZR i + 1) * sqrt 3 / 2);
      (IZR i / 2 + IZR j + 1 / 2, (IZR i + 1) * sqrt 3 / 2) ].
Proof.
  unfold triangle_coordinates, SQRT3OVER2, lit_0_5, lit_1_5, lit_2.
  cbn [negb float_of_Z fadd fdiv fmul fsqrt Exact].
  rewrite plus_IZR. apply triangle_eq; lra.
Qed.

(** The two triangles of the cell (2, 1), in binary64. *)
Example triangle_coordinates_binary64 :
  triangle_coordinates (F := float) 2 1 false
  = [ (2%float, PrimFloat.mul 2%float SQRT3OVER2);
      (3%float, PrimFloat.mul 2%float SQRT3OVER2);
      (2.5%float, PrimFloat.mul 3%float SQRT3OVER2) ] /\
  triangle_coordinates (F := float) 2 1 true
  = [ (3%float, PrimFloat.mul 2%float SQRT3OVER2);
      (3.5%float, PrimFloat.mul 3%float SQRT3OVER2);
      (2.5%float, PrimFloat.mul 3%float SQRT3OVER2) ].
Proof. split; reflexivity. Qed.

(** C9.  In exact arithmetic the standard triangle of (i, j) has the
    vertices (i/2+j, i*sqrt(3)/2), (i/2+j+1, i*sqrt(3)/2),
    (i/2+j+1/2, (i+1)*sqrt(3)/2), the alternate one the vertices
    (i/2+j+1, i*sqrt(3)/2), (i/2+j+3/2, (i+1)*sqrt(3)/2),
    (i/2+j+1/2, (i+1)*sqrt(3)/2), and a point lies in the lattice cell
    (i, j) exactly when it lies in one of the two triangles. *)
Theorem triangle_coordinates_tile (i j : Z) :
  triangle_coordinates (F := R) i j false
  = [ (IZR i / 2 + IZR j, IZR i * sqrt 3 / 2);
      (IZR i / 2 + IZR j + 1, IZR i * sqrt 3 / 2);
      (IZR i / 2 + IZR j + 1 / 2, (IZR i + 1) * sqrt 3 / 2) ] /\
  triangle_coordinates (F := R) i j true
  = [ (IZR i / 2 + IZR j + 1, IZR i * sqrt 3 / 2);
      (IZR i / 2 + IZR j + 3 / 2, (IZR i + 1) * sqrt 3 / 2);
      (IZR i / 2 + IZR j + 1 / 2, (IZR i + 1) * sqrt 3 / 2) ] /\
  (forall p : R * R,
      in_cell i j p <->
      in_triangle p (triangle_coordinates i j false) \/
      in_triangle p (triangle_coordinates i j true)).
Proof.
  split; [apply triangle_coordinates_std|].
  split; [apply triangle_coordinates_alt|].
  intros [x y]. rewrite triangle_coordinates_std, triangle_coordinates_alt.
  unfold in_cell, in_triangle. cbn [fst snd].
  set (h := sqrt 3). set (I := IZR i). set (J := IZR j). split.
  - intros (s & t & Hs & Ht & Hx & Hy).
    destruct (Rle_dec (s + t) 1) as [Hle|Hgt].
    + left. exists (1 - s - t), s, t. subst x y.
      repeat split; try lra; field.
    + right. exists (1 - t), (s + t - 1), (1 - s). subst x y.
      repeat split; try lra; field.
  - intros [(u & v & w & Hu & Hv & Hw & Hsum & Hx & Hy)
           |(u & v & w & Hu & Hv & Hw & Hsum & Hx & Hy)].
    + exists v, w. replace u with (1 - v - w) in Hx, Hy by lra. subst x y.
      repeat split; try lra; field.
    + exists (u + v), (v + w). replace u with (1 - v - w) in Hx, Hy by lra.
      subst x y. repeat split; try lra; field.
Qed.

(** ** Colour lookup *)

Lemma feqb_exact (x y : R) : feqb x y = true <-> x = y.
Proof.
  cbn. destruct (Req_dec_T x y); split; intros; congruence.
Qed.

Lemma feqb_exact_false (x y : R) : x <> y -> feqb x y = false.
Proof.
  intros Hxy. cbn. destruct (Req_dec_T x y); congruence.
Qed.

Lemma num_sub_exact (a b : pynum R) :
  to_float (num_sub b a) = to_float b - to_float a.
Proof.
  destruct a, b; cbn; try reflexivity. apply minus_IZR.
Qed.

Lemma num_eqb_zero_exact (a : pynum R) :
  num_eqb a (PInt 0) = true <-> to_float a = 0.
Proof.
  destruct a as [n|x]; cbn [num_eqb to_float].
  - rewrite Z.eqb_eq. split; [intros ->; reflexivity|apply eq_IZR].
  - cbn [Z_eqb_float Exact].
    destruct (Req_dec_T (IZR 0) x); split; intros; (congruence || lra).
Qed.

(** The normalised position computed by [colormapper] on a proper
    domain. *)
Lemma colormapper_proper (DEFAULT_COLOR_MAP : colormap)
    (rgb2hex : list R -> string) (cmap : option colormap) (x a b : pynum R) :
  to_float a <> to_float b ->
  colormapper DEFAULT_COLOR_MAP rgb2hex x a b cmap
  = Ok (rgb2hex (np_flatten
          (match cmap with Some c => c | None => DEFAULT_COLOR_MAP end
             (PFloat ((to_float x - to_float a) / (to_float b - to_float a)))))).
Proof.
  intros Hab. unfold colormapper, num_truediv.
  destruct (num_eqb (num_sub b a) (PInt 0)) eqn:E.
  - apply num_eqb_zero_exact in E. rewrite num_sub_exact in E. lra.
  - rewrite feqb_exact_false by (rewrite num_sub_exact; cbn; lra).
    cbn [bind]. now rewrite !num_sub_exact.
Qed.



(** The same three calls in binary64, through the stand-in colour map. *)
Example colormapper_binary64 :
  colormapper (F := float) gray_cmap two_tone_hex (PInt 2) (PInt 2) (PInt 5) None
  = Ok "#000000"%string /\
  colormapper (F := float) gray_cmap two_tone_hex (PInt 5) (PInt 2) (PInt 5) None
  = Ok "#ffffff"%string /\
  colormapper (F := float) gray_cmap two_tone_hex (PFloat 7%float)
    (PFloat 3%float) (PFloat 3%float) None
  = Ok "#000000"%string.
Proof. repeat split. Qed.

(** ** Heatmaps *)

Local Open Scope Z_scope.

Section HeatmapFacts.

Context {F : Type} {PF : PyFloat F}.
Variable DEFAULT_COLOR_MAP : colormap (F := F).
Variable get_cmap : string -> colormap (F := F).
Variable rgb2hex : list F -> string.

(** Filling cells leaves the colour bars alone. *)
Lemma heatmap_fill_colorbars (items : list ((Z * Z) * pynum F)) (steps : Z)
    (a b : pynum F) (cmap : colormap) (ax ax' : axes F) :
  heatmap_fill DEFAULT_COLOR_MAP rgb2hex items steps a b cmap ax = Ok ax' ->
  ax_colorbars ax' = ax_colorbars ax.
Proof.
  revert ax. induction items as [|[[i j] v] rest IH]; intros ax H.
  - cbn in H. now inversion H.
  - cbn [heatmap_fill] in H.
    destruct (List.split (hex_coordinates i j steps)) as [x y].
    destruct (colormapper DEFAULT_COLOR_MAP rgb2hex v a b (Some cmap)) as [c|e];
      cbn [bind] in H; [|discriminate].
    apply IH in H. rewrite H. reflexivity.
Qed.

(** A successful [heatmap] ends by attaching a colour bar over the
    domain it computed. *)
Lemma heatmap_colorbar (d : dict (pynum F)) (steps : Z)
    (cmap_name : option string) (boundary : bool) (ax : option (axes F))
    (scientific : bool) (min_max_scale : option (pynum F * pynum F))
    (ax' : axes F) :
  heatmap DEFAULT_COLOR_MAP get_cmap rgb2hex d steps cmap_name boundary ax
          scientific min_max_scale = Ok ax' ->
  exists a b,
    heatmap_domain d min_max_scale = Ok (a, b) /\
    ax_colorbars ax'
    = ax_colorbars (match ax with Some ax => ax | None => plt_subplot end)
      ++ [{| cb_vmin := a; cb_vmax := b; cb_format := "%.4f"%string;
             cb_numticks := 7; cb_scientific := scientific |}].
Proof.
  unfold heatmap. intros H.
  destruct (heatmap_domain d min_max_scale) as [[a b]|e]; cbn [bind] in H;
    [|discriminate].
  cbn [fst snd] in H.
  match type of H with
  | context [heatmap_fill ?D ?h ?i ?s ?x ?y ?c ?z] =>
      destruct (heatmap_fill D h i s x y c z) as [ax1|e] eqn:E
  end; cbn [bind] in H; [|discriminate].
  inversion H; subst ax'. exists a, b. split; [reflexivity|].
  apply heatmap_fill_colorbars in E. cbn [plt_colorbar ax_colorbars].
  now rewrite E.
Qed.

End HeatmapFacts.

(** In every arithmetic: with an empty mapping and no [min_max_scale],
    [heatmap] raises [ValueError]; with an empty mapping and a
    [min_max_scale] it returns; and whenever it returns, the colour
    domain is [min_max_scale] when that is supplied, and otherwise
    [min(d.values())], [max(d.values())]. *)
Lemma heatmap_domain_generic {F : Type} {PF : PyFloat F}
    (DEFAULT_COLOR_MAP : colormap) (get_cmap : string -> colormap)
    (rgb2hex : list F -> string) (steps : Z) (cmap_name : option string)
    (boundary : bool) (ax : option (axes F)) (scientific : bool) :
  let ax0 := match ax with Some ax => ax | None => plt_subplot end in
  let bar a b := {| cb_vmin := a; cb_vmax := b; cb_format := "%.4f"%string;
                    cb_numticks := 7; cb_scientific := scientific |} in
  heatmap DEFAULT_COLOR_MAP get_cmap rgb2hex [] steps cmap_name boundary ax
          scientific None = Raise ValueError /\
  (forall a b,
      heatmap DEFAULT_COLOR_MAP get_cmap rgb2hex [] steps cmap_name boundary ax
              scientific (Some (a, b))
      = Ok {| ax_fills := ax_fills ax0;
              ax_colorbars := ax_colorbars ax0 ++ [bar a b] |}) /\
  (forall d a b ax',
      heatmap DEFAULT_COLOR_MAP get_cmap rgb2hex d steps cmap_name boundary ax
              scientific (Some (a, b)) = Ok ax' ->
      ax_colorbars ax' = ax_colorbars ax0 ++ [bar a b]) /\
  (forall d ax',
      heatmap DEFAULT_COLOR_MAP get_cmap rgb2hex d steps cmap_name boundary ax
              scientific None = Ok ax' ->
      exists a b,
        py_min (dict_values d) = Ok a /\ py_max (dict_values d) = Ok b /\
        ax_colorbars ax' = ax_colorbars ax0 ++ [bar a b]).
Proof.
  intros ax0 bar.
  split; [reflexivity|]. split; [intros a b; reflexivity|]. split.
  - intros d a b ax' H. apply heatmap_colorbar in H.
    destruct H as (a' & b' & Hd & Hc). cbn in Hd. inversion Hd; subst a' b'.
    exact Hc.
  - intros d ax' H. apply heatmap_colorbar in H.
    destruct H as (a & b & Hd & Hc). exists a, b.
    unfold heatmap_domain in Hd.
    destruct (py_min (dict_values d)) as [a'|e]; cbn [bind] in Hd; [|discriminate].
    destruct (py_max (dict_values d)) as [b'|e]; cbn [bind] in Hd; [|discriminate].
    inversion Hd; subst a' b'. auto.
Qed.

(** [heatmap] on three cells, in binary64: the colour bar spans the
    least and the greatest value of the mapping. *)
Example heatmap_binary64 :
  exists ax' : axes float,
    heatmap gray_cmap named_cmap two_tone_hex
      [((0, 0), PFloat 0.25%float); ((0, 1), PInt 3); ((1, 0), PFloat (-1.5)%float)]
      1 None true None false None = Ok ax' /\
    map (fun c => (cb_vmin c, cb_vmax c)) (ax_colorbars ax')
    = [(PFloat (-1.5)%float, PInt 3)] /\
    map (fun f => facecolor f) (ax_fills ax')
    = ["#000000"%string; "#ffffff"%string; "#000000"%string].
Proof. eexists. repeat split. Qed.

(** ** Normalisation *)

Local Open Scope R_scope.

Lemma num_add_exact (a b : pynum R) :
  to_float (num_add a b) = to_float a + to_float b.
Proof.
  destruct a, b; cbn; try reflexivity. apply plus_IZR.
Qed.

Lemma py_sum_exact (xs : list (pynum R)) :
  to_float (py_sum xs) = Rsum (map to_float xs).
Proof.
  unfold py_sum.
  assert (H : forall acc : pynum R,
             to_float (fold_left num_add xs acc)
             = to_float acc + Rsum (map to_float xs)).
  { induction xs as [|x xs IH]; intros acc; cbn [fold_left map Rsum fold_right].
    - lra.
    - rewrite IH, num_add_exact. unfold Rsum. lra. }
  rewrite H. cbn. lra.
Qed.

Lemma mapM_truediv_exact (s : R) (xs : list (pynum R)) :
  s <> 0 ->
  mapM (fun x => num_truediv x s) xs = Ok (map (fun x => to_float x / s) xs).
Proof.
  intros Hs. induction xs as [|x xs IH]; [reflexivity|].
  cbn [mapM map]. unfold num_truediv at 1.
  rewrite feqb_exact_false by (cbn; lra). cbn [bind]. rewrite IH. reflexivity.
Qed.

Lemma Rsum_div (s : R) (xs : list (pynum R)) :
  Rsum (map (fun x => to_float x / s) xs) = Rsum (map to_float xs) / s.
Proof.
  induction xs as [|x xs IH]; cbn [map Rsum fold_right].
  - unfold Rdiv. now rewrite Rmult_0_l.
  - fold (Rsum (map (fun x => to_float x / s) xs)). rewrite IH.
    fold (Rsum (map to_float xs)). unfold Rdiv. ring.
Qed.

Lemma normalize_zero_sum_exact (xs : list (pynum R)) :
  xs <> [] -> Rsum (map to_float xs) = 0 ->
  normalize xs = Raise ZeroDivisionError.
Proof.
  intros Hne Hs. unfold normalize. rewrite py_sum_exact, Hs.
  destruct xs as [|x xs]; [congruence|].
  cbn [mapM]. unfold num_truediv at 1.
  replace (feqb 0 (float_of_Z 0%Z)) with true; [reflexivity|].
  symmetry. apply feqb_exact. reflexivity.
Qed.

Lemma simplex_points_zero : simplex_points 0 true = [(0, 0, 0)%Z].
Proof. reflexivity. Qed.

Lemma mapM_truediv_ok {F : Type} {PF : PyFloat F} (s : F) (xs : list (pynum F)) :
  feqb s (float_of_Z 0%Z) = false ->
  mapM (fun x => num_truediv x s) xs = Ok (map (fun x => fdiv (to_float x) s) xs).
Proof.
  intros Hs. induction xs as [|x xs IH]; [reflexivity|].
  cbn [mapM map]. unfold num_truediv at 1. rewrite Hs. cbn [bind].
  rewrite IH. reflexivity.
Qed.

Lemma mapM_truediv_zero {F : Type} {PF : PyFloat F} (s : F) (xs : list (pynum F)) :
  xs <> [] -> feqb s (float_of_Z 0%Z) = true ->
  mapM (fun x => num_truediv x s) xs = Raise ZeroDivisionError.
Proof.
  intros Hne Hs. destruct xs as [|x xs]; [congruence|].
  cbn [mapM]. unfold num_truediv at 1. rewrite Hs. reflexivity.
Qed.

(** C10, as the code has it.  Let s = float(sum(xs)) be the sum the code
    computes, in whichever arithmetic.  When s is not zero, [normalize]
    returns the list of the quotients xs[k]/s, as long as xs; when s is
    zero and xs is not empty it raises [ZeroDivisionError]; the empty
    list is returned as it is.  In exact arithmetic s is the sum of the
    elements and the quotients sum to 1.  In binary64 neither holds in
    general: the quotients of (4, 23, 28) do not sum to 1, and the list
    2^53, 1, -2^53 of floats and an integer, of sum 1, has s = 0 and is
    refused.  The list [0, 0, 0] is what [plot_heatmap] meets at
    steps = 0 with the boundary, in both arithmetics. *)
Theorem normalize_unguarded :
  (forall (F : Type) (PF : PyFloat F) (xs : list (pynum F)),
      feqb (to_float (py_sum xs)) (float_of_Z 0%Z) = false ->
      normalize xs
      = Ok (map (fun x => fdiv (to_float x) (to_float (py_sum xs))) xs) /\
      length (map (fun x => fdiv (to_float x) (to_float (py_sum xs))) xs)
      = length xs) /\
  (forall (F : Type) (PF : PyFloat F) (xs : list (pynum F)),
      xs <> [] ->
      feqb (to_float (py_sum xs)) (float_of_Z 0%Z) = true ->
      normalize xs = Raise ZeroDivisionError) /\
  (forall (F : Type) (PF : PyFloat F), normalize (F := F) [] = Ok []) /\
  (forall xs : list (pynum R),
      to_float (py_sum xs) = Rsum (map to_float xs)) /\
  (forall xs : list (pynum R),
      Rsum (map to_float xs) <> 0 ->
      exists ys : list R,
        normalize xs = Ok ys /\
        length ys = length xs /\
        ys = map (fun x => to_float x / Rsum (map to_float xs)) xs /\
        Rsum ys = 1) /\
  (forall xs : list (pynum R),
      xs <> [] -> Rsum (map to_float xs) = 0 ->
      normalize xs = Raise ZeroDivisionError) /\
  (exists ys : list float,
      normalize [PInt 4; PInt 23; PInt 28] = Ok ys /\
      PrimFloat.eqb (float_sum ys) 1%float = false) /\
  normalize [PFloat 9007199254740992%float; PInt 1;
             PFloat (-9007199254740992)%float]
  = Raise ZeroDivisionError /\
  simplex_points 0 true = [(0, 0, 0)%Z] /\
  (forall DEFAULT_COLOR_MAP get_cmap rgb2hex func cmap_name ax scientific mm,
      plot_heatmap (F := R) DEFAULT_COLOR_MAP get_cmap rgb2hex func 0 true
                   cmap_name ax scientific mm = Raise ZeroDivisionError) /\
  (forall DEFAULT_COLOR_MAP get_cmap rgb2hex func cmap_name ax scientific mm,
      plot_heatmap (F := float) DEFAULT_COLOR_MAP get_cmap rgb2hex func 0 true
                   cmap_name ax scientific mm = Raise ZeroDivisionError).
Proof.
  split; [|split; [|split; [|split; [|split; [|split; [|split; [|split;
    [|split; [|split]]]]]]]]].
  - intros F PF xs Hs. split; [|apply length_map].
    unfold normalize. now apply mapM_truediv_ok.
  - intros F PF xs Hne Hs. unfold normalize. now apply mapM_truediv_zero.
  - reflexivity.
  - apply py_sum_exact.
  - intros xs Hs. exists (map (fun x => to_float x / Rsum (map to_float xs)) xs).
    split; [|split; [|split]].
    + unfold normalize. rewrite py_sum_exact. now apply mapM_truediv_exact.
    + apply length_map.
    + reflexivity.
    + rewrite Rsum_div. field. exact Hs.
  - apply normalize_zero_sum_exact.
  - eexists. split; vm_compute; reflexivity.
  - vm_compute. reflexivity.
  - exact simplex_points_zero.
  - intros. unfold plot_heatmap. rewrite simplex_points_zero. cbn [sample].
    rewrite normalize_zero_sum_exact; [reflexivity|discriminate|cbn; lra].
  - intros. reflexivity.
Qed.

(** The statement of C10 fails twice.  The empty list has sum zero and is
    returned, not refused.  And in binary64 the quotients of the lattice
    triple (4, 23, 28) do not sum to 1: not when added from left to
    right, and not exactly either, their exact sum lying below
    1 - 2^-54, hence below every float that rounds to 1. *)
Lemma normalize_not_exact :
  normalize (F := R) [] = Ok [] /\
  normalize (F := float) [] = Ok [] /\
  exists ys : list float,
    normalize [PInt 4; PInt 23; PInt 28] = Ok ys /\
    PrimFloat.eqb (float_sum ys) 1%float = false /\
    exists q : Q,
      exact_sum ys = Some q /\ (q < 1 - (1 # 18014398509481984))%Q.
Proof.
  split; [reflexivity|]. split; [reflexivity|].
  eexists. split; [vm_compute; reflexivity|].
  split; [vm_compute; reflexivity|].
  eexists. split; [vm_compute; reflexivity|].
  vm_compute. reflexivity.
Qed.

(** ** Malformed points *)

Local Open Scope Z_scope.

(** [project] on a trajectory, and on three pairs, in binary64. *)
Example project_binary64 :
  project (F := float)
    (VList [VTuple [VNum (PInt 1); VNum (PInt 0); VNum (PInt 0)];
            VTuple [VNum (PInt 0); VNum (PInt 1); VNum (PInt 0)];
            VTuple [VNum (PInt 0); VNum (PInt 0); VNum (PInt 1)]])
  = Ok (VList [VTuple [VNum (PFloat 0%float); VNum (PFloat 1%float);
                       VNum (PFloat 0.5%float)];
               VTuple [VNum (PFloat 0%float); VNum (PFloat 0%float);
                       VNum (PFloat SQRT3OVER2)]]) /\
  project (F := float)
    (VList [VTuple [VNum (PInt 1); VNum (PInt 2)];
            VTuple [VNum (PInt 3); VNum (PInt 4)];
            VTuple [VNum (PInt 5); VNum (PInt 6)]])
  = Raise TypeError.
Proof. split; reflexivity. Qed.

(** C8, as the code has it.  A tuple or list with fewer than three
    entries makes [project_point] raise [IndexError]; when it holds one
    or two numbers [project] raises [IndexError] too, its handler calling
    [project_point] again on the whole input; a bare number makes both
    raise [TypeError].  Nothing is returned in these cases.  Entries
    past the third are never read: [project_point] gives a point of more
    than three entries what it gives its first three, and so does
    [project] when the entries are numbers. *)
Theorem projection_short_point {F : Type} {PF : PyFloat F} (l : list (pyval F)) :
  (length l < 3)%nat ->
  project_point (VTuple l) = Raise IndexError /\
  project_point (VList l) = Raise IndexError /\
  (l <> [] -> Forall is_num l ->
   project (VTuple l) = Raise IndexError /\
   project (VList l) = Raise IndexError) /\
  (forall n : pynum F,
      project_point (VNum n) = Raise TypeError /\
      project (VNum n) = Raise TypeError) /\
  (forall (a b c : pyval F) (rest : list (pyval F)),
      project_point (VTuple (a :: b :: c :: rest)) = project_point (VTuple [a; b; c]) /\
      project_point (VList (a :: b :: c :: rest)) = project_point (VList [a; b; c])) /\
  (forall (a b c : pynum F) (rest : list (pyval F)),
      project_point (VTuple (VNum a :: VNum b :: VNum c :: rest))
      = Ok (VTuple [VNum (proj_x b c); VNum (proj_y c)]) /\
      project (VTuple (VNum a :: VNum b :: VNum c :: rest))
      = Ok (VTuple [VNum (proj_x b c); VNum (proj_y c)]) /\
      project (VList (VNum a :: VNum b :: VNum c :: rest))
      = Ok (VTuple [VNum (proj_x b c); VNum (proj_y c)])).
Proof.
  intros Hlen.
  assert (Hnum : forall n : pynum F,
             project_point (VNum n) = Raise TypeError /\
             project (VNum n) = Raise TypeError)
    by (intros n; split; reflexivity).
  assert (Hrest : forall (a b c : pyval F) (rest : list (pyval F)),
             project_point (VTuple (a :: b :: c :: rest))
             = project_point (VTuple [a; b; c]) /\
             project_point (VList (a :: b :: c :: rest))
             = project_point (VList [a; b; c]))
    by (intros a b c rest; split; reflexivity).
  assert (Hlong : forall (a b c : pynum F) (rest : list (pyval F)),
             project_point (VTuple (VNum a :: VNum b :: VNum c :: rest))
             = Ok (VTuple [VNum (proj_x b c); VNum (proj_y c)]) /\
             project (VTuple (VNum a :: VNum b :: VNum c :: rest))
             = Ok (VTuple [VNum (proj_x b c); VNum (proj_y c)]) /\
             project (VList (VNum a :: VNum b :: VNum c :: rest))
             = Ok (VTuple [VNum (proj_x b c); VNum (proj_y c)]))
    by (intros a b c rest; repeat split; reflexivity).
  destruct l as [|a [|b [|c l]]]; cbn [length] in Hlen; try lia;
    (split; [reflexivity|]); (split; [reflexivity|]);
    (split; [|split; [exact Hnum|split; [exact Hrest|exact Hlong]]]);
    intros Hne Hall.
  - congruence.
  - inversion Hall as [|? ? [n ->] _]. split; reflexivity.
  - inversion Hall as [|? ? [n ->] _]. split; reflexivity.
Qed.

Lemma projection_short_point_witness :
  project_point (F := float) (VTuple [VNum (PInt 1); VNum (PInt 2)])
  = Raise IndexError /\
  project_point (F := float) (VList [VNum (PInt 1); VNum (PInt 2)])
  = Raise IndexError /\
  ([VNum (F := float) (PInt 1); VNum (PInt 2)] <> [] ->
   Forall is_num [VNum (F := float) (PInt 1); VNum (PInt 2)] ->
   project (F := float) (VTuple [VNum (PInt 1); VNum (PInt 2)]) = Raise IndexError /\
   project (F := float) (VList [VNum (PInt 1); VNum (PInt 2)]) = Raise IndexError) /\
  (forall n : pynum float,
      project_point (VNum n) = Raise TypeError /\
      project (VNum n) = Raise TypeError) /\
  (forall (a b c : pyval float) (rest : list (pyval float)),
      project_point (VTuple (a :: b :: c :: rest)) = project_point (VTuple [a; b; c]) /\
      project_point (VList (a :: b :: c :: rest)) = project_point (VList [a; b; c])) /\
  (forall (a b c : pynum float) (rest : list (pyval float)),
      project_point (VTuple (VNum a :: VNum b :: VNum c :: rest))
      = Ok (VTuple [VNum (proj_x b c); VNum (proj_y c)]) /\
      project (VTuple (VNum a :: VNum b :: VNum c :: rest))
      = Ok (VTuple [VNum (proj_x b c); VNum (proj_y c)]) /\
      project (VList (VNum a :: VNum b :: VNum c :: rest))
      = Ok (VTuple [VNum (proj_x b c); VNum (proj_y c)])).
Proof.
  apply (@projection_short_point float Binary64 [VNum (PInt 1); VNum (PInt 2)]).
  cbn. lia.
Defined.

(** The statement of C8 fails on a pair, where the error is an
    [IndexError] and not a [TypeError], and on a point of four
    components, which is projected from its first three; the empty
    sequence is projected to no points. *)
Lemma projection_arity_not_type_error :
  project_point (F := float) (VTuple [VNum (PInt 1); VNum (PInt 2)])
  = Raise IndexError /\
  project (F := float) (VTuple [VNum (PInt 1); VNum (PInt 2)])
  = Raise IndexError /\
  IndexError <> TypeError /\
  project_point (F := float)
    (VTuple [VNum (PInt 1); VNum (PInt 2); VNum (PInt 3); VNum (PInt 4)])
  = Ok (VTuple [VNum (PFloat 3.5%float);
                VNum (PFloat (PrimFloat.mul SQRT3OVER2 3%float))]) /\
  project (F := float)
    (VTuple [VNum (PInt 1); VNum (PInt 2); VNum (PInt 3); VNum (PInt 4)])
  = Ok (VTuple [VNum (PFloat 3.5%float);
                VNum (PFloat (PrimFloat.mul SQRT3OVER2 3%float))]) /\
  project (F := float) (VTuple []) = Ok (VList []).
Proof.
  repeat split; try reflexivity. discriminate.
Qed.

(** * Further properties *)

(** ** The lattice, once more *)

Lemma StronglySorted_NoDup {A : Type} (R : A -> A -> Prop) (l : list A) :
  (forall x, ~ R x x) -> StronglySorted R l -> NoDup l.
Proof.
  intros Hirr Hs. induction Hs as [|a l Hs IH Hall]; constructor; auto.
  intros Hin. rewrite Forall_forall in Hall. exact (Hirr a (Hall a Hin)).
Qed.

Lemma StronglySorted_filter {A : Type} (R : A -> A -> Prop) (f : A -> bool)
    (l : list A) :
  StronglySorted R l -> StronglySorted R (filter f l).
Proof.
  intros Hs. induction Hs as [|a l Hs IH Hall]; cbn [filter]; [constructor|].
  destruct (f a); [|assumption]. constructor; [assumption|].
  rewrite Forall_forall in *. intros x Hx. apply filter_In in Hx.
  apply Hall. tauto.
Qed.

(** Two lists sorted for the same strict order, with the same elements,
    are the same list. *)
Lemma StronglySorted_ext {A : Type} (R : A -> A -> Prop) (l1 l2 : list A) :
  (forall x y, R x y -> ~ R y x) ->
  StronglySorted R l1 -> StronglySorted R l2 ->
  (forall x, In x l1 <-> In x l2) -> l1 = l2.
Proof.
  intros Hasym H1. revert l2.
  induction H1 as [|a l1 H1 IH Ha]; intros l2 H2 Hin.
  - destruct l2 as [|b l2]; [reflexivity|].
    exfalso. apply (proj2 (Hin b)). now left.
  - destruct H2 as [|b l2 H2 Hb].
    + exfalso. apply (proj1 (Hin a)). now left.
    + rewrite Forall_forall in Ha, Hb.
      assert (Hab : a = b).
      { destruct (proj1 (Hin a) (or_introl eq_refl)) as [E|Ea]; [now symmetry|].
        destruct (proj2 (Hin b) (or_introl eq_refl)) as [E|Eb]; [assumption|].
        exfalso. exact (Hasym _ _ (Ha b Eb) (Hb a Ea)). }
      subst b. f_equal. apply IH; [assumption|].
      intros x. split; intros Hx.
      * destruct (proj1 (Hin x) (or_intror Hx)) as [E|E]; [|assumption].
        subst x. exfalso. exact (Hasym _ _ (Ha a Hx) (Ha a Hx)).
      * destruct (proj2 (Hin x) (or_intror Hx)) as [E|E]; [|assumption].
        subst x. exfalso. exact (Hasym _ _ (Hb a Hx) (Hb a Hx)).
Qed.

Lemma lex12_asym (s t : triple) : lex12 s t -> ~ lex12 t s.
Proof. unfold lex12. lia. Qed.

Lemma simplex_points_sorted (steps : Z) (boundary : bool) :
  StronglySorted lex12 (simplex_points steps boundary).
Proof.
  unfold simplex_points. cbv zeta.
  apply StronglySorted_flat_map with (R := Z.lt).
  - intros x1 _. apply StronglySorted_map with (R := Z.lt).
    + intros x y _ _ Hxy. right. unfold x1_of, x2_of. cbn [fst snd]. lia.
    + apply py_range_sorted.
  - intros x y u v _ _ Hxy Hu Hv.
    apply in_map_iff in Hu. destruct Hu as (a & <- & _).
    apply in_map_iff in Hv. destruct Hv as (b & <- & _).
    left. unfold x1_of. cbn [fst snd]. exact Hxy.
  - apply py_range_sorted.
Qed.

(** X1.  [simplex_points] yields every triple of the lattice, and each
    one once: with the boundary the non-negative triples of sum [steps],
    without it the strictly positive ones. *)
Theorem simplex_points_exactly_once (steps : Z) (boundary : bool) :
  NoDup (simplex_points steps boundary) /\
  (forall x1 x2 x3 : Z,
      In (x1, x2, x3) (simplex_points steps boundary) <->
      x1 + x2 + x3 = steps /\
      if boundary then 0 <= x1 /\ 0 <= x2 /\ 0 <= x3
      else 0 < x1 /\ 0 < x2 /\ 0 < x3).
Proof.
  split.
  - apply StronglySorted_NoDup with (R := lex12).
    + intros x H. exact (lex12_asym H H).
    + apply simplex_points_sorted.
  - intros x1 x2 x3. rewrite simplex_points_In. cbv zeta.
    unfold x1_of, x2_of, x3_of. cbn [fst snd]. destruct boundary; lia.
Qed.

(** X2.  Leaving the boundary out is the same as enumerating with it and
    dropping the triples that have a zero: same triples, same order. *)
Theorem simplex_points_interior_filter (steps : Z) :
  simplex_points steps false = filter interior (simplex_points steps true).
Proof.
  apply StronglySorted_ext with (R := lex12).
  - exact lex12_asym.
  - apply simplex_points_sorted.
  - apply StronglySorted_filter, simplex_points_sorted.
  - intros t. rewrite filter_In, !simplex_points_In. cbv zeta.
    unfold interior. rewrite !andb_true_iff, !Z.ltb_lt. lia.
Qed.

(** ** Projection of trajectories *)

Section ProjectFacts.

Context {F : Type} {PF : PyFloat F}.

Lemma project_point_point3 (p : pynum F * pynum F * pynum F) :
  project_point (point3 p)
  = Ok (VTuple [VNum (proj_x (snd (fst p)) (snd p)); VNum (proj_y (snd p))]).
Proof. destruct p as [[a b] c]. reflexivity. Qed.

Lemma mapM_project_point3 (pts : list (pynum F * pynum F * pynum F)) :
  mapM project_point (map point3 pts)
  = Ok (map (fun p => VTuple [VNum (proj_x (snd (fst p)) (snd p));
                              VNum (proj_y (snd p))]) pts).
Proof.
  induction pts as [|p pts IH]; [reflexivity|].
  cbn [map mapM]. rewrite project_point_point3, IH. reflexivity.
Qed.

Lemma mapM_py_iter_pairs (A : Type) (f g : A -> pyval F) (l : list A) :
  mapM py_iter (map (fun p => VTuple [f p; g p]) l)
  = Ok (map (fun p => [f p; g p]) l).
Proof.
  induction l as [|p l IH]; [reflexivity|].
  cbn [map mapM py_iter bind]. rewrite IH. reflexivity.
Qed.

Lemma min_length_pairs (A : Type) (f g : A -> pyval F) (a : A) (l : list A) :
  min_length (map (fun p => [f p; g p]) (a :: l)) = 2%nat.
Proof.
  cbn [map min_length length].
  induction l as [|p l IH]; [reflexivity|]. exact IH.
Qed.

Lemma column_pairs (A : Type) (f g : A -> pyval F) (l : list A) :
  column 0 (map (fun p => [f p; g p]) l) = map f l /\
  column 1 (map (fun p => [f p; g p]) l) = map g l.
Proof.
  unfold column. split; induction l as [|p l IH]; simpl; try reflexivity;
    f_equal; exact IH.
Qed.

(** X3.  A non-empty trajectory of well-formed points, given as a list
    or as a tuple, is projected to two parallel sequences: the x
    coordinates of its points in order, and their y coordinates. *)
Theorem project_trajectory (pts : list (pynum F * pynum F * pynum F)) :
  pts <> [] ->
  let xs := map (fun p => VNum (proj_x (snd (fst p)) (snd p))) pts in
  let ys := map (fun p => VNum (proj_y (snd p))) pts in
  project (VList (map point3 pts)) = Ok (VList [VTuple xs; VTuple ys]) /\
  project (VTuple (map point3 pts)) = Ok (VList [VTuple xs; VTuple ys]) /\
  length xs = length pts /\ length ys = length pts.
Proof.
  intros Hne xs ys.
  assert (Hun : (ps <- mapM project_point (map point3 pts) ;; unzip ps)
                = Ok (VList [VTuple xs; VTuple ys])).
  { rewrite mapM_project_point3. cbn [bind]. unfold unzip.
    rewrite (mapM_py_iter_pairs
               (fun p => VNum (proj_x (snd (fst p)) (snd p)))
               (fun p => VNum (proj_y (snd p)))).
    cbn [bind]. destruct pts as [|p pts]; [congruence|].
    rewrite min_length_pairs.
    set (rows := map _ (p :: pts)). cbn [seq map]. subst rows.
    destruct (column_pairs (fun p => VNum (proj_x (snd (fst p)) (snd p)))
                           (fun p => VNum (proj_y (snd p))) (p :: pts))
      as [-> ->].
    reflexivity. }
  unfold project. cbn [py_iter bind]. rewrite Hun.
  repeat split; apply length_map.
Qed.

(** X4.  A single well-formed point is not a sequence of points: the
    attempt to treat its first number as a point raises [TypeError],
    which [project] answers with [project_point] on the point itself. *)
Theorem project_single_point (a b c : pynum F) :
  project (VTuple [VNum a; VNum b; VNum c])
  = Ok (VTuple [VNum (proj_x b c); VNum (proj_y c)]) /\
  project (VList [VNum a; VNum b; VNum c])
  = Ok (VTuple [VNum (proj_x b c); VNum (proj_y c)]).
Proof. split; reflexivity. Qed.

Lemma project_point_num_tuple (ns : list (pynum F)) :
  (exists v, project_point (num_tuple ns) = Ok v /\ (3 <= length ns)%nat) \/
  (project_point (num_tuple ns) = Raise IndexError /\ (length ns < 3)%nat).
Proof.
  destruct ns as [|a [|b [|c ns]]]; cbn [length].
  - right. split; [reflexivity|lia].
  - right. split; [reflexivity|lia].
  - right. split; [reflexivity|lia].
  - left. eexists. split; [reflexivity|lia].
Qed.

Lemma mapM_project_point_short (l : list (list (pynum F))) :
  Exists (fun ns => (length ns < 3)%nat) l ->
  mapM project_point (map num_tuple l) = Raise IndexError.
Proof.
  induction l as [|ns l IH]; intros Hex; [inversion Hex|].
  cbn [map mapM].
  destruct (project_point_num_tuple ns) as [(v & -> & Hlen)|[-> Hlen]];
    cbn [bind]; [|reflexivity].
  rewrite IH; [reflexivity|]. inversion Hex; subst; [lia|assumption].
Qed.

(** X5.  A trajectory of tuples of numbers that holds a point with fewer
    than three components is never projected.  With one or two points
    [project] raises [IndexError]; with three or more it raises
    [TypeError], because its handler then treats the first three points
    as the components of one point. *)
Theorem project_malformed_trajectory (l : list (list (pynum F))) :
  Exists (fun ns => (length ns < 3)%nat) l ->
  ((length l < 3)%nat -> project (VList (map num_tuple l)) = Raise IndexError) /\
  ((3 <= length l)%nat -> project (VList (map num_tuple l)) = Raise TypeError).
Proof.
  intros Hex. pose proof (mapM_project_point_short Hex) as Hm.
  unfold project. cbn [py_iter bind]. rewrite Hm. cbn [bind].
  split; intros Hlen.
  - destruct l as [|p [|q [|r l]]]; cbn [length] in Hlen; try lia.
    + inversion Hex.
    + reflexivity.
    + reflexivity.
  - destruct l as [|p [|q [|r l]]]; cbn [length] in Hlen; try lia.
    reflexivity.
Qed.

End ProjectFacts.

Lemma project_trajectory_witness :
  let pts := [(PInt 1, PInt 0, PInt 0); (PInt 0, PFloat 0.5%float, PFloat 0.5%float)] in
  let xs := map (fun p => VNum (proj_x (snd (fst p)) (snd p))) pts in
  let ys := map (fun p => VNum (proj_y (snd p))) pts in
  project (VList (map point3 pts)) = Ok (VList [VTuple xs; VTuple ys]) /\
  project (VTuple (map point3 pts)) = Ok (VList [VTuple xs; VTuple ys]) /\
  length xs = length pts /\ length ys = length pts.
Proof.
  apply (@project_trajectory float Binary64
           [(PInt 1, PInt 0, PInt 0); (PInt 0, PFloat 0.5%float, PFloat 0.5%float)]).
  discriminate.
Defined.

Lemma project_malformed_trajectory_witness :
  let l := [[PInt 1; PInt 0; PInt 0]; [PInt 1; PInt 2]; [PInt 0; PInt 0; PInt 1]] in
  ((length l < 3)%nat ->
   project (F := float) (VList (map num_tuple l)) = Raise IndexError) /\
  ((3 <= length l)%nat ->
   project (F := float) (VList (map num_tuple l)) = Raise TypeError).
Proof.
  apply (@project_malformed_trajectory float Binary64
           [[PInt 1; PInt 0; PInt 0]; [PInt 1; PInt 2]; [PInt 0; PInt 0; PInt 1]]).
  apply Exists_cons_tl, Exists_cons_hd. cbn. lia.
Defined.

(** ** Cells and the simplex *)

Local Open Scope R_scope.

Lemma sqrt3_pos : 0 < sqrt 3.
Proof. apply sqrt_lt_R0. lra. Qed.

Lemma sqrt3_sqr : sqrt 3 * sqrt 3 = 3.
Proof. apply sqrt_sqrt. lra. Qed.

Lemma inv_sqrt3 : 1 / sqrt 3 = sqrt 3 / 3.
Proof.
  pose proof sqrt3_pos as Hp. pose proof sqrt3_sqr as Hs.
  apply Rmult_eq_reg_r with (r := sqrt 3); [|lra].
  unfold Rdiv. rewrite Rmult_assoc, Rinv_l by lra. lra.
Qed.

Lemma inv_2sqrt3 : 1 / (2 * sqrt 3) = sqrt 3 / 6.
Proof.
  pose proof sqrt3_pos as Hp. pose proof inv_sqrt3 as H3.
  replace (1 / (2 * sqrt 3)) with (1 / sqrt 3 / 2) by (field; lra). lra.
Qed.

Lemma neg_inv_2sqrt3 : - (1) / (2 * sqrt 3) = - (sqrt 3 / 6).
Proof.
  pose proof sqrt3_pos as Hp. pose proof inv_2sqrt3 as H6.
  replace (- (1) / (2 * sqrt 3)) with (- (1 / (2 * sqrt 3))) by (field; lra). lra.
Qed.

(** The offset vectors, in exact arithmetic. *)
Lemma offsets_exact :
  _alpha (F := R) = (0, sqrt 3 / 3) /\
  _deltaup (F := R) = (1 / 2, sqrt 3 / 6) /\
  _deltadown (F := R) = (1 / 2, - (sqrt 3 / 6)) /\
  _i_vec (F := R) = (1 / 2, sqrt 3 / 2) /\
  _i_vec_down (F := R) = (1 / 2, - sqrt 3 / 2) /\
  _deltaX_vec (F := R) = (1 / 2, 0).
Proof.
  unfold _deltaX_vec, _alpha, _deltaup, _deltadown, _i_vec, _i_vec_down,
    lit_1, lit_2.
  cbn [float_of_Z fdiv fmul fneg fsqrt Exact fst].
  rewrite inv_sqrt3, inv_2sqrt3, neg_inv_2sqrt3. repeat split.
Qed.

(** X6.  The cell of the mapping key (i, j) is centred where
    [project_point] puts the triple (k, j, i), whatever k: the first
    component of the key plays the part of the third coordinate of a
    plotted point. *)
Theorem cell_centre_is_projection (i j k : Z) :
  project_point (F := R) (VTuple [VNum (PInt k); VNum (PInt j); VNum (PInt i)])
  = Ok (VTuple [VNum (PFloat (fst (i_j_to_x_y i j)));
                VNum (PFloat (snd (i_j_to_x_y i j)))]).
Proof.
  unfold project_point, i_j_to_x_y.
  cbn [py_getitem nth_error bind py_mul py_add num_mul num_add to_float
       float_of_Z fmul fadd fdiv Exact fst snd].
  rewrite lit_0_5_exact, plus_IZR, mult_IZR. unfold lit_2. cbn [float_of_Z Exact].
  apply cartesian_eq; lra.
Qed.

(** A point whose height is a multiple of sqrt(3) is in the simplex when
    the multiplier satisfies the three bounds. *)
Lemma in_simplex_scaled (S x y Y : R) :
  y = sqrt 3 * Y -> 0 <= Y -> Y <= x -> Y <= S - x -> in_simplex S (x, y).
Proof.
  intros -> H0 H1 H2. pose proof sqrt3_pos as Hp.
  unfold in_simplex. cbn [fst snd]. repeat split.
  - apply Rmult_le_pos; lra.
  - apply Rmult_le_compat_l; lra.
  - apply Rmult_le_compat_l; lra.
Qed.

Ltac simplex_vertex :=
  match goal with
  | |- in_simplex ?S (?x, ?y) =>
      let f := eval pattern (sqrt 3) in y in
      match f with
      | ?g _ =>
          let Y := eval cbv beta in (g 1) in
          apply (@in_simplex_scaled S x y Y); [unfold Rdiv; ring|lra|lra|lra]
      end
  end.

Ltac decide_eqb :=
  repeat match goal with
         | |- context [Z.eqb ?a ?b] =>
             first [ replace (Z.eqb a b) with true
                       by (symmetry; apply Z.eqb_eq; lia)
                   | replace (Z.eqb a b) with false
                       by (symmetry; apply Z.eqb_neq; lia) ]
         end.

(** X7.  In exact arithmetic, for steps >= 1 and a lattice point
    (i, j) of the simplex (0 <= i, 0 <= j, i + j <= steps), every vertex
    of the cell polygon lies in the closed triangle of side [steps]: the
    edge and corner polygons are the hexagon cut off at the boundary. *)
Theorem hex_coordinates_in_simplex (i j steps : Z) :
  (1 <= steps)%Z -> (0 <= i)%Z -> (0 <= j)%Z -> (i + j <= steps)%Z ->
  Forall (in_simplex (IZR steps)) (hex_coordinates (F := R) i j steps).
Proof.
  intros Hs Hi Hj Hij.
  remember (steps - i - j)%Z as k eqn:Hk.
  assert (HS : IZR steps = IZR i + IZR j + IZR k)
    by (rewrite <- !plus_IZR; f_equal; lia).
  assert (Hi' : (i = 0 \/ 1 <= i)%Z) by lia.
  assert (Hj' : (j = 0 \/ 1 <= j)%Z) by lia.
  assert (Hk' : (k = 0 \/ 1 <= k)%Z) by lia.
  destruct offsets_exact as (Ea & Eu & Ed & Ev & Ew & Ex).
  unfold hex_coordinates. cbv zeta.
  rewrite Ea, Eu, Ed, Ev, Ew, Ex.
  unfold i_j_to_x_y, vadd, vsub, vdiv, SQRT3OVER2, lit_2.
  cbn [fst snd float_of_Z fadd fsub fdiv fmul fsqrt Exact].
  rewrite HS. clear HS Ea Eu Ed Ev Ew Ex.
  destruct Hi' as [Hi'|Hi'], Hj' as [Hj'|Hj'], Hk' as [Hk'|Hk'];
    try (exfalso; lia);
    decide_eqb; cbn [andb negb];
    repeat match goal with
           | H : (?z = 0)%Z |- _ => rewrite H in *; clear H
           | H : (1 <= ?z)%Z |- _ => apply IZR_le in H
           end;
    repeat (apply Forall_cons; [simplex_vertex|]); apply Forall_nil.
Qed.

Lemma hex_coordinates_in_simplex_witness :
  Forall (in_simplex (IZR 3)) (hex_coordinates (F := R) 1 2 3).
Proof.
  apply (@hex_coordinates_in_simplex 1 2 3); lia.
Defined.

(** ** What a heatmap draws *)

Local Open Scope Z_scope.

Section HeatmapCells.

Context {F : Type} {PF : PyFloat F}.
Variable DEFAULT_COLOR_MAP : colormap (F := F).
Variable get_cmap : string -> colormap (F := F).
Variable rgb2hex : list F -> string.

Lemma heatmap_fill_cells (items : list ((Z * Z) * pynum F)) (steps : Z)
    (a b : pynum F) (cmap : colormap) (ax ax' : axes F) :
  heatmap_fill DEFAULT_COLOR_MAP rgb2hex items steps a b cmap ax = Ok ax' ->
  exists cells,
    ax_fills ax' = ax_fills ax ++ cells /\
    Forall2 (drawn_as DEFAULT_COLOR_MAP rgb2hex steps a b cmap) items cells.
Proof.
  revert ax. induction items as [|[[i j] v] rest IH]; intros ax H.
  - cbn in H. inversion H; subst. exists []. rewrite app_nil_r.
    split; [reflexivity|constructor].
  - cbn [heatmap_fill] in H.
    destruct (List.split (hex_coordinates i j steps)) as [x y] eqn:Es.
    destruct (colormapper DEFAULT_COLOR_MAP rgb2hex v a b (Some cmap))
      as [c|e] eqn:Ec; cbn [bind] in H; [|discriminate].
    apply IH in H. destruct H as (cells & Hf & Hall).
    cbn [ax_fill ax_fills] in Hf. rewrite <- app_assoc in Hf.
    eexists. split; [exact Hf|]. constructor; [|exact Hall].
    unfold drawn_as. cbn [fst snd fill_x fill_y facecolor edgecolor].
    rewrite Es. cbn [fst snd]. auto.
Qed.

(** X8.  A [heatmap] call that returns has filled one polygon per item
    of the mapping, in the order of the items and after whatever the
    surface held: the polygon of [hex_coordinates] for the item's key,
    its face and its edge in the one colour [colormapper] gives the
    item's value over the domain of the colour bar, in the colour map
    named by [cmap_name], or the default one when no name or the empty
    name is given. *)
Theorem heatmap_cells (d : dict (pynum F)) (steps : Z)
    (cmap_name : option string) (boundary : bool) (ax : option (axes F))
    (scientific : bool) (min_max_scale : option (pynum F * pynum F))
    (ax' : axes F) :
  heatmap DEFAULT_COLOR_MAP get_cmap rgb2hex d steps cmap_name boundary ax
          scientific min_max_scale = Ok ax' ->
  exists a b cells,
    heatmap_domain d min_max_scale = Ok (a, b) /\
    ax_fills ax'
    = ax_fills (match ax with Some ax => ax | None => plt_subplot end) ++ cells /\
    Forall2 (drawn_as DEFAULT_COLOR_MAP rgb2hex steps a b
               (match cmap_name with
                | None | Some EmptyString => DEFAULT_COLOR_MAP
                | Some name => get_cmap name
                end)) d cells.
Proof.
  unfold heatmap. intros H.
  destruct (heatmap_domain d min_max_scale) as [[a b]|e]; cbn [bind] in H;
    [|discriminate].
  cbn [fst snd] in H.
  match type of H with
  | context [heatmap_fill ?D ?h ?i ?s ?x ?y ?c ?z] =>
      destruct (heatmap_fill D h i s x y c z) as [ax1|e] eqn:E
  end; cbn [bind] in H; [|discriminate].
  inversion H; subst ax'. apply heatmap_fill_cells in E.
  destruct E as (cells & Hf & Hall).
  exists a, b, cells. cbn [plt_colorbar ax_fills].
  split; [reflexivity|]. split; [exact Hf|].
  destruct cmap_name as [[|c name]|]; exact Hall.
Qed.

End HeatmapCells.

Lemma heatmap_cells_witness :
  exists a b cells,
    heatmap_domain [((0, 0), PFloat 0.25%float); ((0, 1), PInt 3)] None
    = Ok (a, b) /\
    ax_fills {| ax_fills := ax_fills plt_subplot
                  ++ [{| fill_x := fst (List.split (hex_coordinates 0 0 1));
                         fill_y := snd (List.split (hex_coordinates 0 0 1));
                         facecolor := "#000000"; edgecolor := "#000000" |};
                      {| fill_x := fst (List.split (hex_coordinates 0 1 1));
                         fill_y := snd (List.split (hex_coordinates 0 1 1));
                         facecolor := "#ffffff"; edgecolor := "#ffffff" |}];
                ax_colorbars :=
                  [{| cb_vmin := PFloat 0.25%float; cb_vmax := PInt 3;
                      cb_format := "%.4f"; cb_numticks := 7;
                      cb_scientific := false |}] |}
    = ax_fills plt_subplot ++ cells /\
    Forall2 (drawn_as gray_cmap two_tone_hex 1 a b gray_cmap)
            [((0, 0), PFloat 0.25%float); ((0, 1), PInt 3)] cells.
Proof.
  apply (@heatmap_cells float Binary64 gray_cmap named_cmap two_tone_hex
           [((0, 0), PFloat 0.25%float); ((0, 1), PInt 3)] 1 None true None
           false None).
  reflexivity.
Defined.

(** ** Heatmaps in exact arithmetic *)

Local Open Scope R_scope.

Lemma num_ltb_exact (a b : pynum R) :
  num_ltb a b = true <-> to_float a < to_float b.
Proof.
  destruct a as [m|x], b as [n|y];
    cbn [num_ltb to_float float_of_Z Exact fltb Z_ltb_float float_ltb_Z].
  - rewrite Z.ltb_lt. split; [apply IZR_lt|apply lt_IZR].
  - destruct (Rlt_dec (IZR m) y); split; intros; (congruence || lra).
  - destruct (Rlt_dec x (IZR n)); split; intros; (congruence || lra).
  - destruct (Rlt_dec x y); split; intros; (congruence || lra).
Qed.

Lemma fold_min_exact (r : list (pynum R)) (x : pynum R) :
  let m := fold_left (fun m v => if num_ltb v m then v else m) r x in
  In m (x :: r) /\ Forall (fun v => to_float m <= to_float v) (x :: r).
Proof.
  revert x. induction r as [|y r IH]; intros x; cbn [fold_left].
  - cbv zeta. split; [now left|]. constructor; [lra|constructor].
  - destruct (num_ltb y x) eqn:E.
    + apply num_ltb_exact in E. destruct (IH y) as [Hin Hall]. split.
      * destruct Hin as [<-|Hin]; [right; now left|right; now right].
      * inversion Hall as [|? ? Hy Hr]; subst.
        constructor; [lra|]. constructor; assumption.
    + assert (Hxy : to_float x <= to_float y).
      { destruct (Rle_dec (to_float x) (to_float y)) as [H|H]; [assumption|].
        exfalso. assert (Hlt : to_float y < to_float x) by lra.
        apply num_ltb_exact in Hlt. congruence. }
      destruct (IH x) as [Hin Hall]. split.
      * destruct Hin as [<-|Hin]; [now left|right; now right].
      * inversion Hall as [|? ? Hx Hr]; subst.
        constructor; [assumption|]. constructor; [lra|assumption].
Qed.

Lemma fold_max_exact (r : list (pynum R)) (x : pynum R) :
  let m := fold_left (fun m v => if num_ltb m v then v else m) r x in
  In m (x :: r) /\ Forall (fun v => to_float v <= to_float m) (x :: r).
Proof.
  revert x. induction r as [|y r IH]; intros x; cbn [fold_left].
  - cbv zeta. split; [now left|]. constructor; [lra|constructor].
  - destruct (num_ltb x y) eqn:E.
    + apply num_ltb_exact in E. destruct (IH y) as [Hin Hall]. split.
      * destruct Hin as [<-|Hin]; [right; now left|right; now right].
      * inversion Hall as [|? ? Hy Hr]; subst.
        constructor; [lra|]. constructor; assumption.
    + assert (Hxy : to_float y <= to_float x).
      { destruct (Rle_dec (to_float y) (to_float x)) as [H|H]; [assumption|].
        exfalso. assert (Hlt : to_float x < to_float y) by lra.
        apply num_ltb_exact in Hlt. congruence. }
      destruct (IH x) as [Hin Hall]. split.
      * destruct Hin as [<-|Hin]; [now left|right; now right].
      * inversion Hall as [|? ? Hx Hr]; subst.
        constructor; [assumption|]. constructor; [lra|assumption].
Qed.

Lemma colormapper_ok_exact (DEFAULT_COLOR_MAP : colormap)
    (rgb2hex : list R -> string) (cmap : option colormap) (x a b : pynum R) :
  exists color, colormapper DEFAULT_COLOR_MAP rgb2hex x a b cmap = Ok color.
Proof.
  destruct (Req_dec_T (to_float a) (to_float b)) as [E|N].
  - eexists. unfold colormapper.
    replace (num_eqb (num_sub b a) (PInt 0)) with true; [reflexivity|].
    symmetry. apply num_eqb_zero_exact. rewrite num_sub_exact. lra.
  - eexists. apply colormapper_proper. exact N.
Qed.

(** X9.  In exact arithmetic the guard of [colormapper] does its work:
    the call never raises, whatever the value and the domain; and over a
    proper domain a < b a value between a and b is looked up at a
    position between 0 and 1. *)
Theorem colormapper_never_raises (DEFAULT_COLOR_MAP : colormap)
    (rgb2hex : list R -> string) (cmap : option colormap) (x a b : pynum R) :
  (exists color, colormapper DEFAULT_COLOR_MAP rgb2hex x a b cmap = Ok color) /\
  (to_float a < to_float b -> to_float a <= to_float x <= to_float b ->
   exists t, 0 <= t <= 1 /\
     colormapper DEFAULT_COLOR_MAP rgb2hex x a b cmap
     = Ok (rgb2hex (np_flatten
             (match cmap with Some c => c | None => DEFAULT_COLOR_MAP end
                (PFloat t))))).
Proof.
  split.
  - apply colormapper_ok_exact.
  - intros Hab Hx.
    exists ((to_float x - to_float a) / (to_float b - to_float a)). split.
    + split.
      * apply Rmult_le_pos; [lra|]. left. apply Rinv_0_lt_compat. lra.
      * apply Rmult_le_reg_r with (r := to_float b - to_float a); [lra|].
        unfold Rdiv. rewrite Rmult_assoc, Rinv_l by lra. lra.
    + apply colormapper_proper. lra.
Qed.

Lemma colormapper_never_raises_witness :
  exists t, 0 <= t <= 1 /\
    colormapper (F := R) gray_cmap two_tone_hex (PInt 3) (PInt 2) (PInt 5) None
    = Ok (two_tone_hex (np_flatten (gray_cmap (PFloat t)))).
Proof.
  apply (proj2 (@colormapper_never_raises gray_cmap two_tone_hex None
                  (PInt 3) (PInt 2) (PInt 5))); cbn; lra.
Defined.

Lemma heatmap_fill_ok_exact (DEFAULT_COLOR_MAP : colormap)
    (rgb2hex : list R -> string) (items : list ((Z * Z) * pynum R)) (steps : Z)
    (a b : pynum R) (cmap : colormap) (ax : axes R) :
  exists ax', heatmap_fill DEFAULT_COLOR_MAP rgb2hex items steps a b cmap ax = Ok ax'.
Proof.
  revert ax. induction items as [|[[i j] v] rest IH]; intros ax.
  - eexists. reflexivity.
  - cbn [heatmap_fill].
    destruct (List.split (hex_coordinates i j steps)) as [x y].
    destruct (colormapper_ok_exact DEFAULT_COLOR_MAP rgb2hex (Some cmap) v a b)
      as [c ->].
    cbn [bind]. apply IH.
Qed.

(** The least and the greatest value of a non-empty mapping, as [min]
    and [max] find them. *)
Lemma heatmap_domain_exact (d : dict (pynum R)) :
  d <> [] ->
  exists a b,
    py_min (dict_values d) = Ok a /\ py_max (dict_values d) = Ok b /\
    heatmap_domain d None = Ok (a, b) /\
    In a (dict_values d) /\ In b (dict_values d) /\
    Forall (fun v => to_float a <= to_float v <= to_float b) (dict_values d).
Proof.
  intros Hne. destruct d as [|[k v] d]; [congruence|].
  cbn [dict_values map snd heatmap_domain py_min py_max bind].
  fold (dict_values d).
  destruct (fold_min_exact (dict_values d) v) as [Hin Hlo].
  destruct (fold_max_exact (dict_values d) v) as [Hin' Hhi].
  cbv zeta in *. eexists. eexists.
  split; [reflexivity|]. split; [reflexivity|]. split; [reflexivity|].
  split; [exact Hin|]. split; [exact Hin'|].
  rewrite Forall_forall in *. intros w Hw. split; auto.
Qed.

(** In exact arithmetic, once the domain is found [heatmap] returns,
    with one cell per item and the colour bar over the domain. *)
Lemma heatmap_over_domain_exact (DEFAULT_COLOR_MAP : colormap)
    (get_cmap : string -> colormap) (rgb2hex : list R -> string)
    (d : dict (pynum R)) (steps : Z) (cmap_name : option string)
    (boundary : bool) (ax : option (axes R)) (scientific : bool)
    (min_max_scale : option (pynum R * pynum R)) (a b : pynum R) :
  heatmap_domain d min_max_scale = Ok (a, b) ->
  exists ax' cells,
    heatmap DEFAULT_COLOR_MAP get_cmap rgb2hex d steps cmap_name boundary ax
            scientific min_max_scale = Ok ax' /\
    ax_colorbars ax'
    = ax_colorbars (match ax with Some ax => ax | None => plt_subplot end)
      ++ [{| cb_vmin := a; cb_vmax := b; cb_format := "%.4f"%string;
             cb_numticks := 7; cb_scientific := scientific |}] /\
    ax_fills ax'
    = ax_fills (match ax with Some ax => ax | None => plt_subplot end) ++ cells /\
    Forall2 (drawn_as DEFAULT_COLOR_MAP rgb2hex steps a b
               (match cmap_name with
                | None | Some EmptyString => DEFAULT_COLOR_MAP
                | Some name => get_cmap name
                end)) d cells.
Proof.
  intros Hd.
  set (ax0 := match ax with Some ax => ax | None => plt_subplot end).
  destruct (heatmap_fill_ok_exact DEFAULT_COLOR_MAP rgb2hex d steps a b
              (match non_empty cmap_name with
               | None => DEFAULT_COLOR_MAP
               | Some name => get_cmap name
               end) ax0) as [ax1 Hfill].
  destruct (heatmap_fill_cells _ _ _ _ _ _ _ _ Hfill) as (cells & Hf & Hall).
  exists (plt_colorbar ax1 a b scientific), cells.
  split; [|split; [|split]].
  - unfold heatmap. rewrite Hd. cbn [bind fst snd]. fold ax0.
    rewrite Hfill. reflexivity.
  - cbn [plt_colorbar ax_colorbars].
    now rewrite (heatmap_fill_colorbars _ _ _ _ _ _ _ _ Hfill).
  - exact Hf.
  - destruct cmap_name as [[|c name]|]; exact Hall.
Qed.

(** C7.  With an empty mapping and no [min_max_scale], [heatmap] raises
    [ValueError], and with an empty mapping and a [min_max_scale] it
    returns, in every arithmetic; whenever it returns, the colour domain
    is [min_max_scale] when that is supplied, and otherwise
    [min(d.values())], [max(d.values())].  In exact arithmetic it does
    return for every non-empty mapping, with the colour bar and the
    colours of the cells over the least and the greatest value of the
    mapping, and for every mapping with a [min_max_scale], with both over
    that.  In binary64 the least and greatest of an integer and a float
    are found by comparing the two as they are. *)
Theorem heatmap_domain_choice :
  (forall (F : Type) (PF : PyFloat F)
          (DEFAULT_COLOR_MAP : colormap) (get_cmap : string -> colormap)
          (rgb2hex : list F -> string) (steps : Z) (cmap_name : option string)
          (boundary : bool) (ax : option (axes F)) (scientific : bool),
      let ax0 := match ax with Some ax => ax | None => plt_subplot end in
      let bar a b := {| cb_vmin := a; cb_vmax := b; cb_format := "%.4f"%string;
                        cb_numticks := 7; cb_scientific := scientific |} in
      heatmap DEFAULT_COLOR_MAP get_cmap rgb2hex [] steps cmap_name boundary ax
              scientific None = Raise ValueError /\
      (forall a b,
          heatmap DEFAULT_COLOR_MAP get_cmap rgb2hex [] steps cmap_name boundary
                  ax scientific (Some (a, b))
          = Ok {| ax_fills := ax_fills ax0;
                  ax_colorbars := ax_colorbars ax0 ++ [bar a b] |}) /\
      (forall d a b ax',
          heatmap DEFAULT_COLOR_MAP get_cmap rgb2hex d steps cmap_name boundary
                  ax scientific (Some (a, b)) = Ok ax' ->
          ax_colorbars ax' = ax_colorbars ax0 ++ [bar a b]) /\
      (forall d ax',
          heatmap DEFAULT_COLOR_MAP get_cmap rgb2hex d steps cmap_name boundary
                  ax scientific None = Ok ax' ->
          exists a b,
            py_min (dict_values d) = Ok a /\ py_max (dict_values d) = Ok b /\
            ax_colorbars ax' = ax_colorbars ax0 ++ [bar a b])) /\
  (forall (DEFAULT_COLOR_MAP : colormap) (get_cmap : string -> colormap)
          (rgb2hex : list R -> string) (d : dict (pynum R)) (steps : Z)
          (cmap_name : option string) (boundary : bool) (ax : option (axes R))
          (scientific : bool),
      let ax0 := match ax with Some ax => ax | None => plt_subplot end in
      let bar a b := {| cb_vmin := a; cb_vmax := b; cb_format := "%.4f"%string;
                        cb_numticks := 7; cb_scientific := scientific |} in
      let cmap := match cmap_name with
                  | None | Some EmptyString => DEFAULT_COLOR_MAP
                  | Some name => get_cmap name
                  end in
      (d <> [] ->
       exists a b ax' cells,
         heatmap DEFAULT_COLOR_MAP get_cmap rgb2hex d steps cmap_name boundary
                 ax scientific None = Ok ax' /\
         py_min (dict_values d) = Ok a /\ py_max (dict_values d) = Ok b /\
         In a (dict_values d) /\ In b (dict_values d) /\
         Forall (fun v => to_float a <= to_float v <= to_float b)
                (dict_values d) /\
         ax_colorbars ax' = ax_colorbars ax0 ++ [bar a b] /\
         ax_fills ax' = ax_fills ax0 ++ cells /\
         Forall2 (drawn_as DEFAULT_COLOR_MAP rgb2hex steps a b cmap) d cells) /\
      (forall a b,
          exists ax' cells,
            heatmap DEFAULT_COLOR_MAP get_cmap rgb2hex d steps cmap_name
                    boundary ax scientific (Some (a, b)) = Ok ax' /\
            ax_colorbars ax' = ax_colorbars ax0 ++ [bar a b] /\
            ax_fills ax' = ax_fills ax0 ++ cells /\
            Forall2 (drawn_as DEFAULT_COLOR_MAP rgb2hex steps a b cmap) d cells)) /\
  heatmap_domain (F := float)
    [((0, 0)%Z, PInt 9007199254740993);
     ((0, 1)%Z, PFloat 9007199254740992%float)] None
  = Ok (PFloat 9007199254740992%float, PInt 9007199254740993).
Proof.
  split; [|split].
  - intros F PF DEFAULT_COLOR_MAP get_cmap rgb2hex steps cmap_name boundary ax
           scientific.
    exact (heatmap_domain_generic DEFAULT_COLOR_MAP get_cmap rgb2hex steps
             cmap_name boundary ax scientific).
  - intros DEFAULT_COLOR_MAP get_cmap rgb2hex d steps cmap_name boundary ax
           scientific ax0 bar cmap. split.
    + intros Hne.
      destruct (heatmap_domain_exact Hne) as (a & b & Hmin & Hmax & Hd & Ha & Hb & Hall).
      destruct (@heatmap_over_domain_exact DEFAULT_COLOR_MAP get_cmap rgb2hex
                  d steps cmap_name boundary ax scientific None a b Hd)
        as (ax' & cells & Hh & Hbar & Hfills & Hcells).
      exists a, b, ax', cells. repeat (split; [assumption|]). assumption.
    + intros a b.
      destruct (@heatmap_over_domain_exact DEFAULT_COLOR_MAP get_cmap rgb2hex
                  d steps cmap_name boundary ax scientific (Some (a, b)) a b
                  eq_refl)
        as (ax' & cells & Hh & Hbar & Hfills & Hcells).
      exists ax', cells. repeat (split; [assumption|]). assumption.
  - vm_compute. reflexivity.
Qed.

(** X10.  In exact arithmetic [heatmap] returns for every non-empty
    mapping, and for every mapping when [min_max_scale] is given.  It
    then has added one polygon per item and one colour bar; without
    [min_max_scale] the ends of the colour bar are values of the
    mapping and every value lies between them. *)
Theorem heatmap_returns (DEFAULT_COLOR_MAP : colormap)
    (get_cmap : string -> colormap) (rgb2hex : list R -> string)
    (d : dict (pynum R)) (steps : Z) (cmap_name : option string)
    (boundary : bool) (ax : option (axes R)) (scientific : bool)
    (min_max_scale : option (pynum R * pynum R)) :
  d <> [] \/ min_max_scale <> None ->
  let ax0 := match ax with Some ax => ax | None => plt_subplot end in
  exists a b ax',
    heatmap DEFAULT_COLOR_MAP get_cmap rgb2hex d steps cmap_name boundary ax
            scientific min_max_scale = Ok ax' /\
    length (ax_fills ax') = (length (ax_fills ax0) + length d)%nat /\
    ax_colorbars ax'
    = ax_colorbars ax0
      ++ [{| cb_vmin := a; cb_vmax := b; cb_format := "%.4f"%string;
             cb_numticks := 7; cb_scientific := scientific |}] /\
    match min_max_scale with
    | Some mm => a = fst mm /\ b = snd mm
    | None =>
        In a (dict_values d) /\ In b (dict_values d) /\
        Forall (fun v => to_float a <= to_float v <= to_float b) (dict_values d)
    end.
Proof.
  intros Hne ax0.
  assert (Hdom : exists a b,
             heatmap_domain d min_max_scale = Ok (a, b) /\
             match min_max_scale with
             | Some mm => a = fst mm /\ b = snd mm
             | None =>
                 In a (dict_values d) /\ In b (dict_values d) /\
                 Forall (fun v => to_float a <= to_float v <= to_float b)
                        (dict_values d)
             end).
  { destruct min_max_scale as [mm|].
    - exists (fst mm), (snd mm). split; [reflexivity|auto].
    - destruct d as [|[k v] d]; [destruct Hne; congruence|].
      cbn [dict_values map snd heatmap_domain py_min py_max bind].
      fold (dict_values d).
      destruct (fold_min_exact (dict_values d) v) as [Hin Hlo].
      destruct (fold_max_exact (dict_values d) v) as [Hin' Hhi].
      eexists. eexists. split; [reflexivity|]. cbv zeta in *.
      split; [exact Hin|]. split; [exact Hin'|].
      rewrite Forall_forall in *. intros w Hw. split; auto. }
  destruct Hdom as (a & b & Hd & Hab).
  destruct (heatmap_fill_ok_exact DEFAULT_COLOR_MAP rgb2hex d steps a b
              (match non_empty cmap_name with
               | None => DEFAULT_COLOR_MAP
               | Some name => get_cmap name
               end) ax0) as [ax1 Hfill].
  exists a, b, (plt_colorbar ax1 a b scientific).
  split; [|split; [|split]].
  - unfold heatmap. rewrite Hd. cbn [bind fst snd]. fold ax0.
    rewrite Hfill. reflexivity.
  - cbn [plt_colorbar ax_fills].
    destruct (heatmap_fill_cells _ _ _ _ _ _ _ _ Hfill) as (cells & -> & Hall).
    rewrite length_app. f_equal. symmetry.
    clear -Hall. induction Hall; cbn [length]; congruence.
  - cbn [plt_colorbar ax_colorbars].
    now rewrite (heatmap_fill_colorbars _ _ _ _ _ _ _ _ Hfill).
  - exact Hab.
Qed.

Lemma heatmap_returns_witness :
  let ax0 := plt_subplot (F := R) in
  let d := [((0, 0)%Z, PInt 4); ((0, 1)%Z, PFloat (1 / 2))] in
  exists a b ax',
    heatmap gray_cmap named_cmap two_tone_hex d 1 None true None false None
    = Ok ax' /\
    length (ax_fills ax') = (length (ax_fills ax0) + length d)%nat /\
    ax_colorbars ax'
    = ax_colorbars ax0
      ++ [{| cb_vmin := a; cb_vmax := b; cb_format := "%.4f"%string;
             cb_numticks := 7; cb_scientific := false |}] /\
    (In a (dict_values d) /\ In b (dict_values d) /\
     Forall (fun v => to_float a <= to_float v <= to_float b) (dict_values d)).
Proof.
  apply (@heatmap_returns gray_cmap named_cmap two_tone_hex
           [((0, 0)%Z, PInt 4); ((0, 1)%Z, PFloat (1 / 2))] 1 None true None
           false None).
  left. discriminate.
Defined.

(** ** Sampling a function over the lattice *)

Lemma normalize_lattice_exact (steps x1 x2 x3 : Z) :
  steps <> 0%Z -> (x1 + x2 + x3 = steps)%Z ->
  normalize (F := R) [PInt x1; PInt x2; PInt x3]
  = Ok (barycentric steps (x1, x2, x3)).
Proof.
  intros Hs Hsum. unfold normalize. rewrite py_sum_exact.
  assert (E : Rsum (map to_float [PInt (F := R) x1; PInt x2; PInt x3])
              = IZR steps).
  { cbn [map Rsum fold_right to_float float_of_Z Exact].
    rewrite <- Hsum, !plus_IZR. lra. }
  rewrite E. rewrite mapM_truediv_exact by (apply not_0_IZR; exact Hs).
  reflexivity.
Qed.

(** X11.  For steps different from 0, [normalize] takes a triple of
    [simplex_points] to the barycentric point (x1/steps, x2/steps,
    x3/steps): three numbers between 0 and 1 of sum 1, at which
    [plot_heatmap] then calls the function. *)
Theorem normalize_lattice_point (steps : Z) (boundary : bool) (t : triple) :
  steps <> 0%Z -> In t (simplex_points steps boundary) ->
  normalize (F := R) [PInt (x1_of t); PInt (x2_of t); PInt (x3_of t)]
  = Ok (barycentric steps t) /\
  Forall (fun p => 0 <= p <= 1) (barycentric steps t) /\
  Rsum (barycentric steps t) = 1.
Proof.
  intros Hs Hin. apply simplex_points_In in Hin. cbv zeta in Hin.
  destruct t as [[x1 x2] x3]. unfold x1_of, x2_of, x3_of in *. cbn [fst snd] in *.
  assert (H1 : (0 <= x1)%Z) by (destruct boundary; lia).
  assert (H2 : (0 <= x2)%Z) by (destruct boundary; lia).
  assert (H3 : (0 <= x3)%Z) by (destruct boundary; lia).
  assert (Hsum : (x1 + x2 + x3 = steps)%Z) by lia.
  assert (Hpos : 0 < IZR steps) by (apply IZR_lt; lia).
  assert (Hfrac : forall x : Z, (0 <= x <= steps)%Z -> 0 <= IZR x / IZR steps <= 1).
  { intros x [Hx0 Hx1]. apply IZR_le in Hx0, Hx1. split.
    - apply Rmult_le_pos; [assumption|]. left. now apply Rinv_0_lt_compat.
    - apply Rmult_le_reg_r with (r := IZR steps); [assumption|].
      unfold Rdiv. rewrite Rmult_assoc, Rinv_l by lra. lra. }
  split; [|split].
  - now apply normalize_lattice_exact.
  - unfold barycentric, x1_of, x2_of, x3_of. cbn [fst snd].
    repeat (apply Forall_cons; [apply Hfrac; lia|]). apply Forall_nil.
  - unfold barycentric, x1_of, x2_of, x3_of. cbn [fst snd Rsum fold_right].
    rewrite <- Hsum, !plus_IZR in *. field. lra.
Qed.

Lemma normalize_lattice_point_witness :
  normalize (F := R) [PInt (x1_of (1, 2, 1)%Z); PInt (x2_of (1, 2, 1)%Z);
                      PInt (x3_of (1, 2, 1)%Z)]
  = Ok (barycentric 4 (1, 2, 1)%Z) /\
  Forall (fun p => 0 <= p <= 1) (barycentric 4 (1, 2, 1)%Z) /\
  Rsum (barycentric 4 (1, 2, 1)%Z) = 1.
Proof.
  apply (@normalize_lattice_point 4 true (1, 2, 1)%Z).
  - discriminate.
  - vm_compute. tauto.
Defined.

Lemma key_eqb_eq (k k' : Z * Z) : key_eqb k k' = true <-> k = k'.
Proof.
  destruct k as [a b], k' as [a' b']. unfold key_eqb. cbn [fst snd].
  rewrite andb_true_iff, !Z.eqb_eq. split; [intros [-> ->]|intros [= -> ->]]; auto.
Qed.

Lemma dict_set_fresh {V : Type} (d : dict V) (k : Z * Z) (v : V) :
  ~ In k (map fst d) -> dict_set d k v = d ++ [(k, v)].
Proof.
  induction d as [|[k' v'] d IH]; intros Hk; [reflexivity|].
  cbn [dict_set]. destruct (key_eqb k k') eqn:E.
  - apply key_eqb_eq in E. exfalso. apply Hk. left. now symmetry.
  - cbn [app]. f_equal. apply IH. intros Hin. apply Hk. now right.
Qed.

Lemma lattice_keys_fresh (l : list triple) (t : triple) :
  Forall (lex12 t) l -> ~ In (x1_of t, x2_of t) (map (fun u => (x1_of u, x2_of u)) l).
Proof.
  intros Hall Hin. apply in_map_iff in Hin. destruct Hin as (u & E & Hu).
  rewrite Forall_forall in Hall. specialize (Hall u Hu).
  unfold lex12 in Hall. inversion E. lia.
Qed.

Lemma sample_exact (func : list R -> pynum R) (steps : Z) (pts : list triple)
    (d : dict (pynum R)) :
  steps <> 0%Z ->
  StronglySorted lex12 pts ->
  Forall (fun t => (x1_of t + x2_of t + x3_of t = steps)%Z) pts ->
  (forall t, In t pts -> ~ In (x1_of t, x2_of t) (map fst d)) ->
  sample func pts d
  = Ok (d ++ map (fun t => ((x1_of t, x2_of t), func (barycentric steps t))) pts).
Proof.
  intros Hs Hsort. revert d.
  induction Hsort as [|t pts Hsort IH Hall]; intros d Hsum Hfresh.
  - cbn. now rewrite app_nil_r.
  - destruct t as [[x1 x2] x3]. cbn [sample].
    apply Forall_cons_iff in Hsum. destruct Hsum as [Ht Hrest].
    unfold x1_of, x2_of, x3_of in Ht. cbn [fst snd] in Ht.
    rewrite (@normalize_lattice_exact steps x1 x2 x3 Hs Ht). cbn [bind].
    rewrite dict_set_fresh
      by (apply (Hfresh (x1, x2, x3)); now left).
    rewrite IH.
    + rewrite <- app_assoc. reflexivity.
    + exact Hrest.
    + intros u Hu Hin. rewrite map_app, in_app_iff in Hin.
      destruct Hin as [Hin|Hin].
      * apply (Hfresh u); [now right|exact Hin].
      * cbn [map fst In] in Hin. destruct Hin as [E|[]].
        rewrite Forall_forall in Hall. specialize (Hall u Hu).
        unfold lex12, x1_of, x2_of in Hall. cbn [fst snd] in Hall.
        inversion E. unfold x1_of, x2_of in *. lia.
Qed.

(** X12.  In exact arithmetic and for steps different from 0,
    [plot_heatmap] is [heatmap] on the mapping that sends the pair
    (x1, x2) of every lattice triple, in the order of [simplex_points],
    to the function's value at the triple's barycentric point; no key is
    written twice and no division fails. *)
Theorem plot_heatmap_samples (DEFAULT_COLOR_MAP : colormap)
    (get_cmap : string -> colormap) (rgb2hex : list R -> string)
    (func : list R -> pynum R) (steps : Z) (boundary : bool)
    (cmap_name : option string) (ax : option (axes R)) (scientific : bool)
    (min_max_scale : option (pynum R * pynum R)) :
  steps <> 0%Z ->
  plot_heatmap DEFAULT_COLOR_MAP get_cmap rgb2hex func steps boundary
               cmap_name ax scientific min_max_scale
  = heatmap DEFAULT_COLOR_MAP get_cmap rgb2hex (sampled func steps boundary)
            steps cmap_name true ax scientific min_max_scale.
Proof.
  intros Hs. unfold plot_heatmap.
  rewrite (@sample_exact func steps (simplex_points steps boundary) [] Hs).
  - reflexivity.
  - apply simplex_points_sorted.
  - apply Forall_forall. intros t Ht. apply simplex_points_In in Ht.
    cbv zeta in Ht. lia.
  - intros t _ [].
Qed.

Lemma plot_heatmap_samples_witness :
  plot_heatmap (F := R) gray_cmap named_cmap two_tone_hex
               (fun p => PFloat (Rsum p)) 2 true None None false None
  = heatmap gray_cmap named_cmap two_tone_hex
            (sampled (fun p => PFloat (Rsum p)) 2 true)
            2 None true None false None.
Proof.
  apply (@plot_heatmap_samples gray_cmap named_cmap two_tone_hex
           (fun p => PFloat (Rsum p)) 2 true None None false None).
  discriminate.
Defined.

(** ** The empty lattice *)

Local Open Scope Z_scope.

Lemma simplex_points_empty (steps : Z) (boundary : bool) :
  (boundary = false /\ steps <= 2) \/ steps < 0 ->
  simplex_points steps boundary = [].
Proof.
  intros H. destruct (simplex_points steps boundary) as [|t l] eqn:E;
    [reflexivity|].
  assert (Hin : In t (simplex_points steps boundary)) by (rewrite E; now left).
  apply simplex_points_In in Hin. cbv zeta in Hin.
  destruct boundary; destruct H as [[Hb Hs]|Hs]; try discriminate; lia.
Qed.

(** X13.  When the lattice is empty - without the boundary for
    steps <= 2, or for negative steps - [plot_heatmap] never calls the
    function: without [min_max_scale] it raises [ValueError], the
    minimum of no values; with it, it draws the colour bar alone. *)
Theorem plot_heatmap_empty_lattice {F : Type} {PF : PyFloat F}
    (DEFAULT_COLOR_MAP : colormap) (get_cmap : string -> colormap)
    (rgb2hex : list F -> string) (func : list F -> pynum F) (steps : Z)
    (boundary : bool) (cmap_name : option string) (ax : option (axes F))
    (scientific : bool) :
  (boundary = false /\ steps <= 2) \/ steps < 0 ->
  plot_heatmap DEFAULT_COLOR_MAP get_cmap rgb2hex func steps boundary
               cmap_name ax scientific None = Raise ValueError /\
  (forall a b,
      plot_heatmap DEFAULT_COLOR_MAP get_cmap rgb2hex func steps boundary
                   cmap_name ax scientific (Some (a, b))
      = Ok (plt_colorbar (match ax with Some ax => ax | None => plt_subplot end)
                         a b scientific)).
Proof.
  intros H. unfold plot_heatmap. rewrite (simplex_points_empty H).
  split; [reflexivity|]. intros a b. reflexivity.
Qed.

Lemma plot_heatmap_empty_lattice_witness :
  plot_heatmap (F := float) gray_cmap named_cmap two_tone_hex
               (fun p => PInt 1) 2 false None None false None
  = Raise ValueError /\
  (forall a b,
      plot_heatmap (F := float) gray_cmap named_cmap two_tone_hex
                   (fun p => PInt 1) 2 false None None false (Some (a, b))
      = Ok (plt_colorbar plt_subplot a b false)).
Proof.
  apply (@plot_heatmap_empty_lattice float Binary64 gray_cmap named_cmap
           two_tone_hex (fun p => PInt 1) 2 false None None false).
  left. split; [reflexivity|lia].
Defined.

(** ** Lines *)

Section PlotFacts.

Context {F : Type} {PF : PyFloat F}.

Lemma unpack2_columns (xs ys : list (pyval F)) :
  unpack2 (VList [VTuple xs; VTuple ys]) = Ok (VTuple xs, VTuple ys).
Proof. reflexivity. Qed.

Lemma project_list_ok (pts : list (pynum F * pynum F * pynum F)) :
  pts <> [] ->
  project (VList (map point3 pts))
  = Ok (VList [VTuple (map (fun p => VNum (proj_x (snd (fst p)) (snd p))) pts);
               VTuple (map (fun p => VNum (proj_y (snd p))) pts)]).
Proof.
  intros Hne. unfold project. cbn [py_iter bind].
  rewrite mapM_project_point3. cbn [bind]. unfold unzip.
  rewrite (mapM_py_iter_pairs
             (fun p => VNum (proj_x (snd (fst p)) (snd p)))
             (fun p => VNum (proj_y (snd p)))).
  cbn [bind]. destruct pts as [|p pts]; [congruence|].
  rewrite min_length_pairs.
  set (rows := map _ (p :: pts)). cbn [seq map]. subst rows.
  destruct (column_pairs (fun p => VNum (proj_x (snd (fst p)) (snd p)))
                         (fun p => VNum (proj_y (snd p))) (p :: pts))
    as [-> ->].
  reflexivity.
Qed.

Lemma plot_list_ok (pts : list (pynum F * pynum F * pynum F))
    (color : option string) (linewidth : F) (ax : option (line_axes F)) :
  pts <> [] ->
  plot (VList (map point3 pts)) color linewidth ax
  = Ok {| la_lines :=
            la_lines (match ax with Some ax => ax | None => plt_subplot_lines end)
            ++ [{| line_x := VTuple (map (fun p => VNum (proj_x (snd (fst p)) (snd p))) pts);
                   line_y := VTuple (map (fun p => VNum (proj_y (snd p))) pts);
                   line_color := color_given color;
                   line_width := linewidth |}];
          la_ylim := la_ylim (match ax with Some ax => ax | None => plt_subplot_lines end);
          la_xlim := la_xlim (match ax with Some ax => ax | None => plt_subplot_lines end) |}.
Proof.
  intros Hne. unfold plot. rewrite (project_list_ok Hne). cbn [bind].
  rewrite unpack2_columns. reflexivity.
Qed.

Lemma plot_each_ok (tss : list (list (pynum F * pynum F * pynum F)))
    (linewidth : F) (ax : line_axes F) :
  Forall (fun pts => pts <> []) tss ->
  plot_each (map (fun pts => VList (map point3 pts)) tss) linewidth ax
  = Ok {| la_lines := la_lines ax ++ map (trajectory_line linewidth) tss;
          la_ylim := la_ylim ax; la_xlim := la_xlim ax |}.
Proof.
  intros Hall. revert ax.
  induction Hall as [|pts tss Hne Hall IH]; intros ax.
  - cbn [map plot_each]. rewrite app_nil_r. now destruct ax.
  - cbn [map plot_each]. rewrite (plot_list_ok None linewidth (Some ax) Hne).
    cbn [bind]. rewrite IH. cbn [la_lines la_ylim la_xlim color_given].
    rewrite <- app_assoc. reflexivity.
Qed.

Lemma plot_each_empty (tss tss' : list (list (pynum F * pynum F * pynum F)))
    (linewidth : F) (ax : line_axes F) :
  Forall (fun pts => pts <> []) tss ->
  plot_each (map (fun pts => VList (map point3 pts)) (tss ++ [] :: tss'))
            linewidth ax
  = Raise ValueError.
Proof.
  intros Hall. revert ax.
  induction Hall as [|pts tss Hne Hall IH]; intros ax.
  - reflexivity.
  - cbn [app map plot_each]. rewrite (plot_list_ok None linewidth (Some ax) Hne).
    cbn [bind]. apply IH.
Qed.

(** X14.  [plot] adds one line per call and leaves the limits alone: for
    a non-empty trajectory of well-formed points the line through the
    projected points, for a single point the one projected point.  An
    empty trajectory is refused with [ValueError], nothing being there
    to unpack. *)
Theorem plot_one_line (color : option string) (linewidth : F)
    (ax : option (line_axes F)) :
  let ax0 := match ax with Some ax => ax | None => plt_subplot_lines end in
  let drawn x y :=
    {| la_lines := la_lines ax0 ++
         [{| line_x := x; line_y := y; line_color := color_given color;
             line_width := linewidth |}];
       la_ylim := la_ylim ax0; la_xlim := la_xlim ax0 |} in
  (forall pts : list (pynum F * pynum F * pynum F),
      pts <> [] ->
      plot (VList (map point3 pts)) color linewidth ax
      = Ok (drawn (VTuple (map (fun p => VNum (proj_x (snd (fst p)) (snd p))) pts))
                  (VTuple (map (fun p => VNum (proj_y (snd p))) pts)))) /\
  (forall a b c : pynum F,
      plot (point3 (a, b, c)) color linewidth ax
      = Ok (drawn (VNum (proj_x b c)) (VNum (proj_y c)))) /\
  plot (VList []) color linewidth ax = Raise ValueError /\
  plot (VTuple []) color linewidth ax = Raise ValueError.
Proof.
  intros ax0 drawn. split; [|split; [|split]]; try reflexivity.
  intros pts Hne. now apply plot_list_ok.
Qed.

End PlotFacts.

(** ** The boundary *)

Local Open Scope R_scope.

Lemma math_sqrt_exact (x : R) : 0 <= x -> math_sqrt x = Ok (sqrt x).
Proof.
  intros Hx. unfold math_sqrt. cbn [fltb float_of_Z Exact].
  destruct (Rlt_dec x 0); [lra|reflexivity].
Qed.

Lemma sqrt_scale (s : R) : 0 <= s -> sqrt (s * s * 3) = s * sqrt 3.
Proof.
  intros Hs. rewrite sqrt_mult by nra. rewrite sqrt_square by assumption.
  reflexivity.
Qed.

Lemma sqrt3_bound : sqrt 3 / 2 <= 9 / 10.
Proof.
  assert (H : sqrt 3 <= 9 / 5).
  { replace (9 / 5) with (sqrt ((9 / 5) * (9 / 5))) by (apply sqrt_square; lra).
    apply sqrt_le_1_alt. lra. }
  lra.
Qed.

Lemma path_eq (a b c d a' b' c' d' : R) :
  a = a' -> b = b' -> c = c' -> d = d' -> [a; b; c; d] = [a'; b'; c'; d'].
Proof. now intros -> -> -> ->. Qed.

(** X15.  In exact arithmetic [draw_boundary] never raises, the square
    under its root being non-negative.  For a scale s >= 0 the line it
    draws runs through the projections of (s,0,0), (0,s,0), (0,0,s) and
    back to the first, and the limits it sets hold the whole triangle:
    every point of the simplex of side s lies within them. *)
Theorem draw_boundary_corners (scale : pynum R) (linewidth : R)
    (color : string) (ax : option (line_axes R)) :
  0 <= to_float scale ->
  let s := to_float scale in
  let ax0 := match ax with Some ax => ax | None => plt_subplot_lines end in
  exists bx by_ px py,
    draw_boundary scale linewidth color ax
    = Ok {| la_lines := la_lines ax0 ++
              [{| line_x := bx; line_y := by_; line_color := Some color;
                  line_width := linewidth |}];
            la_ylim := Some (- (1 / 20) * s, 9 / 10 * s);
            la_xlim := Some (- (1 / 20) * s, 21 / 20 * s) |} /\
    project (corner_path s) = Ok (VList [px; py]) /\
    coords bx = coords px /\ coords by_ = coords py /\
    (forall p, in_simplex s p ->
               - (1 / 20) * s <= fst p <= 21 / 20 * s /\
               - (1 / 20) * s <= snd p <= 9 / 10 * s).
Proof.
  intros Hs s ax0. unfold draw_boundary. fold s. fold ax0.
  rewrite math_sqrt_exact by (cbn [fmul float_of_Z Exact]; nra).
  cbn [bind fmul fdiv fneg float_of_Z Exact].
  rewrite sqrt_scale by exact Hs.
  do 4 eexists. split; [|split; [|split; [|split]]].
  - unfold lit_0_05, lit_0_90, lit_1_05. cbn [fdiv float_of_Z Exact].
    reflexivity.
  - reflexivity.
  - unfold coords, column, lit_0_5.
    cbn [flat_map app nth_error fst snd num_mul num_add to_float float_of_Z
         fmul fadd fdiv Exact].
    apply path_eq; rewrite ?plus_IZR, ?mult_IZR; lra.
  - unfold coords, column, SQRT3OVER2, lit_2.
    cbn [flat_map app nth_error fst snd num_mul to_float float_of_Z fmul fdiv
         fsqrt Exact].
    apply path_eq; rewrite ?plus_IZR, ?mult_IZR; lra.
  - intros [x y]. unfold in_simplex. cbn [fst snd]. intros (H0 & H1 & H2).
    pose proof sqrt3_pos as Hp. pose proof sqrt3_bound as Hb.
    assert (Hx0 : 0 <= x) by nra.
    assert (Hx1 : x <= s) by nra.
    assert (Hy : y <= sqrt 3 / 2 * s) by nra.
    repeat split; nra.
Qed.

Lemma draw_boundary_corners_witness :
  let s := to_float (F := R) (PInt 2) in
  let ax0 := plt_subplot_lines (F := R) in
  exists bx by_ px py,
    draw_boundary (PInt 2) 2 "black" None
    = Ok {| la_lines := la_lines ax0 ++
              [{| line_x := bx; line_y := by_; line_color := Some "black"%string;
                  line_width := 2 |}];
            la_ylim := Some (- (1 / 20) * s, 9 / 10 * s);
            la_xlim := Some (- (1 / 20) * s, 21 / 20 * s) |} /\
    project (corner_path s) = Ok (VList [px; py]) /\
    coords bx = coords px /\ coords by_ = coords py /\
    (forall p, in_simplex s p ->
               - (1 / 20) * s <= fst p <= 21 / 20 * s /\
               - (1 / 20) * s <= snd p <= 9 / 10 * s).
Proof.
  apply (@draw_boundary_corners (PInt 2) 2 "black" None). cbn. lra.
Defined.

Lemma draw_boundary_unit (ax : line_axes R) :
  draw_boundary (F := R) (PFloat lit_1) lit_2 "black" (Some ax)
  = Ok {| la_lines := la_lines ax ++
            [{| line_x := VList [VNum (PInt 0); VNum (PFloat 1);
                                 VNum (PFloat (1 / 2)); VNum (PInt 0)];
                line_y := VList [VNum (PInt 0); VNum (PInt 0);
                                 VNum (PFloat (sqrt 3 / 2)); VNum (PInt 0)];
                line_color := Some "black"%string; line_width := 2 |}];
          la_ylim := Some (- (1 / 20), 9 / 10);
          la_xlim := Some (- (1 / 20), 21 / 20) |}.
Proof.
  unfold draw_boundary, lit_1, lit_2, lit_0_05, lit_0_90, lit_1_05.
  cbn [to_float float_of_Z fmul fdiv fneg Exact].
  rewrite math_sqrt_exact by lra. cbn [bind].
  replace (1 * 1 * 3) with 3 by lra.
  replace (- (1 / 20) * 1) with (- (1 / 20)) by lra.
  replace (9 / 10 * 1) with (9 / 10) by lra.
  replace (21 / 20 * 1) with (21 / 20) by lra.
  reflexivity.
Qed.

(** X16.  In exact arithmetic [plot_multiple] on non-empty trajectories
    of well-formed points draws one line per trajectory, in order and in
    the given line width, and then the boundary of the unit simplex: in
    black and in line width 2 whatever width was asked for, with the
    limits (-1/20, 9/10) and (-1/20, 21/20).  One empty trajectory
    among them and the call raises [ValueError] before any boundary is
    drawn. *)
Theorem plot_multiple_lines
    (tss : list (list (pynum R * pynum R * pynum R))) (linewidth : R)
    (ax : option (line_axes R)) :
  Forall (fun pts => pts <> []) tss ->
  let ax0 := match ax with Some ax => ax | None => plt_subplot_lines end in
  plot_multiple (map (fun pts => VList (map point3 pts)) tss) linewidth ax
  = Ok {| la_lines := la_lines ax0 ++ map (trajectory_line linewidth) tss ++
            [{| line_x := VList [VNum (PInt 0); VNum (PFloat 1);
                                 VNum (PFloat (1 / 2)); VNum (PInt 0)];
                line_y := VList [VNum (PInt 0); VNum (PInt 0);
                                 VNum (PFloat (sqrt 3 / 2)); VNum (PInt 0)];
                line_color := Some "black"%string; line_width := 2 |}];
          la_ylim := Some (- (1 / 20), 9 / 10);
          la_xlim := Some (- (1 / 20), 21 / 20) |} /\
  (forall tss',
      plot_multiple
        (map (fun pts => VList (map point3 pts)) (tss ++ [] :: tss'))
        linewidth ax
      = Raise ValueError).
Proof.
  intros Hall ax0. split.
  - unfold plot_multiple. fold ax0. rewrite (plot_each_ok linewidth ax0 Hall).
    cbn [bind]. rewrite draw_boundary_unit. cbn [la_lines].
    rewrite <- app_assoc. reflexivity.
  - intros tss'. unfold plot_multiple. fold ax0.
    rewrite (plot_each_empty tss' linewidth ax0 Hall). reflexivity.
Qed.

Lemma plot_multiple_lines_witness :
  let tss := [[(PInt 1, PInt 0, PInt 0); (PInt 0, PInt 1, PInt 0)];
              [(PFloat (1 / 3), PFloat (1 / 3), PFloat (1 / 3))]] in
  let ax0 := plt_subplot_lines (F := R) in
  plot_multiple (map (fun pts => VList (map point3 pts)) tss) 1 None
  = Ok {| la_lines := la_lines ax0 ++ map (trajectory_line 1) tss ++
            [{| line_x := VList [VNum (PInt 0); VNum (PFloat 1);
                                 VNum (PFloat (1 / 2)); VNum (PInt 0)];
                line_y := VList [VNum (PInt 0); VNum (PInt 0);
                                 VNum (PFloat (sqrt 3 / 2)); VNum (PInt 0)];
                line_color := Some "black"%string; line_width := 2 |}];
          la_ylim := Some (- (1 / 20), 9 / 10);
          la_xlim := Some (- (1 / 20), 21 / 20) |} /\
  (forall tss',
      plot_multiple
        (map (fun pts => VList (map point3 pts)) (tss ++ [] :: tss'))
        1 None
      = Raise ValueError).
Proof.
  apply (@plot_multiple_lines
           [[(PInt 1, PInt 0, PInt 0); (PInt 0, PInt 1, PInt 0)];
            [(PFloat (1 / 3), PFloat (1 / 3), PFloat (1 / 3))]] 1 None).
  repeat (apply Forall_cons; [discriminate|]). apply Forall_nil.
Defined.

(** The same calls in binary64: the boundary of scale 1, and a
    trajectory with its boundary. *)
#[warnings="-inexact-float"]
Example plot_multiple_binary64 :
  exists ax' : line_axes float,
    plot_multiple
      [VList [point3 (PInt 1, PInt 0, PInt 0); point3 (PInt 0, PInt 1, PInt 0);
              point3 (PInt 0, PInt 0, PInt 1); point3 (PInt 1, PInt 0, PInt 0)]]
      1%float None = Ok ax' /\
    map (fun l => line_width l) (la_lines ax') = [1%float; 2%float] /\
    la_ylim ax' = Some ((-0.05)%float, 0.9%float) /\
    la_xlim ax' = Some ((-0.05)%float, 1.05%float).
Proof. eexists. repeat split. Qed.

(** ** The shape of the cells *)

Ltac sqrt3_eq :=
  unfold dist2; cbn [fst snd];
  pose proof sqrt3_sqr as Hsqr; nra.

(** X17.  In exact arithmetic the cell of an interior lattice point is a
    regular hexagon about the point: its six vertices, taken in the
    order returned, lie at distance 1/sqrt(3) from [i_j_to_x_y(i, j)] and
    each lies at that same distance from the next, the last from the
    first. *)
Theorem hex_coordinates_regular (i j steps : Z) :
  (0 < i)%Z -> (0 < j)%Z -> (i + j < steps)%Z ->
  exists v0 v1 v2 v3 v4 v5,
    hex_coordinates (F := R) i j steps = [v0; v1; v2; v3; v4; v5] /\
    Forall (fun v => dist2 v (i_j_to_x_y i j) = 1 / 3) [v0; v1; v2; v3; v4; v5] /\
    dist2 v0 v1 = 1 / 3 /\ dist2 v1 v2 = 1 / 3 /\ dist2 v2 v3 = 1 / 3 /\
    dist2 v3 v4 = 1 / 3 /\ dist2 v4 v5 = 1 / 3 /\ dist2 v5 v0 = 1 / 3.
Proof.
  intros Hi Hj Hij.
  destruct offsets_exact as (Ea & Eu & Ed & Ev & Ew & Ex).
  unfold hex_coordinates. cbv zeta. decide_eqb. cbn [andb negb].
  rewrite Ea, Eu, Ed.
  unfold i_j_to_x_y, vadd, vsub, SQRT3OVER2, lit_2.
  cbn [fst snd float_of_Z fadd fsub fdiv fmul fsqrt Exact].
  do 6 eexists. split; [reflexivity|]. split.
  - repeat (apply Forall_cons; [sqrt3_eq|]). apply Forall_nil.
  - repeat split; sqrt3_eq.
Qed.

Lemma hex_coordinates_regular_witness :
  exists v0 v1 v2 v3 v4 v5,
    hex_coordinates (F := R) 1 1 3 = [v0; v1; v2; v3; v4; v5] /\
    Forall (fun v => dist2 v (i_j_to_x_y 1 1) = 1 / 3) [v0; v1; v2; v3; v4; v5] /\
    dist2 v0 v1 = 1 / 3 /\ dist2 v1 v2 = 1 / 3 /\ dist2 v2 v3 = 1 / 3 /\
    dist2 v3 v4 = 1 / 3 /\ dist2 v4 v5 = 1 / 3 /\ dist2 v5 v0 = 1 / 3.
Proof.
  apply (@hex_coordinates_regular 1 1 3); lia.
Defined.

(** X18.  In exact arithmetic both triangles of a cell are equilateral
    with side 1, and the standard one starts at the lattice point
    [i_j_to_x_y(i, j)] itself. *)
Theorem triangle_coordinates_equilateral (i j : Z) (alt : bool) :
  exists A B C,
    triangle_coordinates (F := R) i j alt = [A; B; C] /\
    dist2 A B = 1 /\ dist2 B C = 1 /\ dist2 C A = 1 /\
    (alt = false -> A = i_j_to_x_y i j).
Proof.
  destruct alt.
  - rewrite triangle_coordinates_alt. do 3 eexists.
    split; [reflexivity|].
    split; [sqrt3_eq|]. split; [sqrt3_eq|]. split; [sqrt3_eq|]. discriminate.
  - rewrite triangle_coordinates_std. do 3 eexists.
    split; [reflexivity|].
    split; [sqrt3_eq|]. split; [sqrt3_eq|]. split; [sqrt3_eq|].
    intros _. unfold i_j_to_x_y, SQRT3OVER2, lit_2.
    cbn [float_of_Z fadd fdiv fmul fsqrt Exact]. f_equal. lra.
Qed.
